(** * StreetViewCollector: the boundary sampler of
      src/components/StreetViewCollector.tsx

    A shallow embedding of the four functions that carry the logic of the
    component ([pointInPolygon], [isPointInBoundary], [getBoundaryBounds] and
    [simulateCollection]) together with the gate [canStartCollection].

    JavaScript numbers are IEEE 754 binary64 values; they are modelled by the
    primitive floats of the kernel, so [Infinity], [NaN], the signed zeros and
    rounding behave as they do in the browser.  [config.targetCount] comes
    from [parseInt(...) || 0] and is an integer: it is modelled as [Z]. *)

From Stdlib Require Import Floats.
From Stdlib Require Import ZArith List String Bool Lia.
Import ListNotations.

Local Open Scope string_scope.
Local Open Scope list_scope.

(** ** Numbers *)

Module Js.

Definition Infinity : float := PrimFloat.infinity.
Definition NaN : float := PrimFloat.nan.

(** [a > b] and [a < b]: both are false as soon as one side is NaN. *)
Definition gt (a b : float) : bool := PrimFloat.ltb b a.
Definition lt (a b : float) : bool := PrimFloat.ltb a b.
Definition le (a b : float) : bool := PrimFloat.leb a b.

(** [Math.min] and [Math.max] of two arguments: NaN when an argument is
    NaN, and [-0] counts as smaller than [+0]. *)
Definition Math_min (a b : float) : float :=
  if PrimFloat.is_nan a || PrimFloat.is_nan b then NaN
  else if PrimFloat.ltb a b then a
  else if PrimFloat.ltb b a then b
  else if PrimFloat.get_sign a then a else b.

Definition Math_max (a b : float) : float :=
  if PrimFloat.is_nan a || PrimFloat.is_nan b then NaN
  else if PrimFloat.ltb a b then b
  else if PrimFloat.ltb b a then a
  else if PrimFloat.get_sign a then b else a.

End Js.

(** ** Exceptions

    A call returns a value or throws. *)

Inductive Exn : Type :=
| TypeError    (* property access on null/undefined *)
| SyntaxError. (* JSON.parse on a malformed document *)

Inductive result (A : Type) : Type :=
| Ok (a : A)
| Throw (e : Exn).

Arguments Ok {A} a.
Arguments Throw {A} e.

(** ** The boundary document

    The value [JSON.parse] yields for a GeoJSON FeatureCollection, as far as
    the code reads it: [geojson.features], [feature.geometry],
    [geometry.type] and [geometry.coordinates].  A missing or null field is
    [None]; a position is the pair [[lng, lat]]. *)

Definition Position : Type := (float * float)%type.
Definition Ring : Type := list Position.

Record Geometry : Type := mkGeometry {
  type : string;
  coordinates : list Ring
}.

Record Feature : Type := mkFeature {
  geometry : option Geometry
}.

Record FeatureCollection : Type := mkFeatureCollection {
  features : option (list Feature)
}.

(** [None] is [null] (or [undefined]). *)
Definition GeoJSON : Type := option FeatureCollection.

(** ** pointInPolygon (lines 75-88) *)

(** The condition of the [if] at line 83; [&&] evaluates its right operand
    only when the left one holds, which [andb] on pure values matches. *)
Definition crosses (x y : float) (vi vj : Position) : bool :=
  let '(xi, yi) := vi in
  let '(xj, yj) := vj in
  negb (Bool.eqb (Js.gt yi y) (Js.gt yj y))
  && Js.lt x ((xj - xi) * (y - yi) / (yj - yi) + xi)%float.

(** What [polygon[i]] is read as outside the array; the loop never does. *)
Definition noVertex : Position := (Js.NaN, Js.NaN).

(** The [for] loop with [n] iterations left, at indices [i] and [j]. *)
Fixpoint pointInPolygon_for (x y : float) (polygon : Ring)
         (n i j : nat) (inside : bool) : bool :=
  match n with
  | O => inside
  | S n' =>
      let vi := nth i polygon noVertex in
      let vj := nth j polygon noVertex in
      let inside' := if crosses x y vi vj then negb inside else inside in
      pointInPolygon_for x y polygon n' (S i) i inside'
  end.

Definition pointInPolygon (point : Position) (polygon : Ring) : bool :=
  let '(x, y) := point in
  pointInPolygon_for x y polygon
    (List.length polygon) 0 (List.length polygon - 1) false.

(** ** isPointInBoundary (lines 60-72) *)

Fixpoint isPointInBoundary_for (lat lng : float) (fs : list Feature)
  : result bool :=
  match fs with
  | [] => Ok false
  | feature :: rest =>
      match geometry feature with
      | None => Throw TypeError
      | Some g =>
          if String.eqb (type g) "Polygon" then
            match coordinates g with
            | [] => Throw TypeError     (* coordinates[0] is undefined *)
            | ring0 :: _ =>
                if pointInPolygon (lng, lat) ring0 then Ok true
                else isPointInBoundary_for lat lng rest
            end
          else isPointInBoundary_for lat lng rest
      end
  end.

Definition isPointInBoundary (lat lng : float) (geojson : GeoJSON)
  : result bool :=
  match geojson with
  | None => Ok false
  | Some fc =>
      match features fc with
      | None => Ok false
      | Some fs => isPointInBoundary_for lat lng fs
      end
  end.

(** ** getBoundaryBounds (lines 91-109) *)

Record Bounds : Type := mkBounds {
  minLat : float;
  maxLat : float;
  minLng : float;
  maxLng : float
}.

Definition initialBounds : Bounds :=
  {| minLat := Js.Infinity; maxLat := (- Js.Infinity)%float;
     minLng := Js.Infinity; maxLng := (- Js.Infinity)%float |}.

(** The body of the inner [forEach]. *)
Definition extend (b : Bounds) (p : Position) : Bounds :=
  let '(lng, lat) := p in
  {| minLat := Js.Math_min (minLat b) lat;
     maxLat := Js.Math_max (maxLat b) lat;
     minLng := Js.Math_min (minLng b) lng;
     maxLng := Js.Math_max (maxLng b) lng |}.

Fixpoint getBoundaryBounds_forEach (fs : list Feature) (b : Bounds)
  : result Bounds :=
  match fs with
  | [] => Ok b
  | feature :: rest =>
      match geometry feature with
      | None => Throw TypeError
      | Some g =>
          if String.eqb (type g) "Polygon" then
            match coordinates g with
            | [] => Throw TypeError
            | ring0 :: _ =>
                getBoundaryBounds_forEach rest (fold_left extend ring0 b)
            end
          else getBoundaryBounds_forEach rest b
      end
  end.

Definition getBoundaryBounds (geojson : GeoJSON) : result Bounds :=
  match geojson with
  | Some {| features := Some fs |} =>
      getBoundaryBounds_forEach fs initialBounds
  | _ => Ok initialBounds
  end.

(** ** The component: configuration, state and environment *)

Record File : Type := mkFile {
  name : string;
  text : string
}.

Record CollectorConfig : Type := mkConfig {
  boundingFile : option File;
  startingUrl : string;
  targetCount : Z
}.

Record StreetViewResult : Type := mkResult {
  panoid : string;
  latitude : float;
  longitude : float;
  timestamp : string
}.

(** The three toasts of [simulateCollection], by title. *)
Inductive Toast : Type :=
| NoBoundaryFile
| CollectionCompleted
| CollectionFailed.

(** What the browser supplies: the successive values of [Math.random()],
    the clock reading [new Date().toISOString()] of each loop iteration,
    [Number.prototype.toString(36)] and [JSON.parse]. *)
Record Browser : Type := mkBrowser {
  Math_random : nat -> float;
  Date_toISOString : nat -> string;
  toString36 : float -> string;
  JSON_parse : string -> option GeoJSON     (* [None]: SyntaxError *)
}.

(** The React state the function writes ([progress] is a pure function of
    the loop index and is left out), the toasts and console warnings issued
    so far, and the number of [Math.random()] values consumed. *)
Record State : Type := mkState {
  isCollecting : bool;
  results : list StreetViewResult;
  currentStatus : string;
  toasts : list Toast;
  warnings : nat;
  drawn : nat
}.

Definition initialState : State :=
  {| isCollecting := false; results := []; currentStatus := "";
     toasts := []; warnings := 0; drawn := 0 |}.

(** ** A state monad in which the state survives an exception

    A statement ends normally or by a throw, and leaves a state either way.
    [OutOfFuel] is the answer of a loop model whose iteration budget ran
    out; the theorems below show that the code never produces it. *)

Inductive outcome (A : Type) : Type :=
| Returns (a : A)
| Throws (e : Exn)
| OutOfFuel.

Arguments Returns {A} a.
Arguments Throws {A} e.
Arguments OutOfFuel {A}.

Definition M (A : Type) : Type := State -> outcome A * State.

Definition ret {A} (a : A) : M A := fun s => (Returns a, s).

Definition bind {A B} (m : M A) (k : A -> M B) : M B :=
  fun s =>
    match m s with
    | (Returns a, s') => k a s'
    | (Throws e, s') => (Throws e, s')
    | (OutOfFuel, s') => (OutOfFuel, s')
    end.

Notation "x <- m ;; k" := (bind m (fun x => k))
  (at level 61, m at next level, right associativity).
Notation "m ;; k" := (bind m (fun _ => k))
  (at level 61, right associativity).

(** A pure call that may throw. *)
Definition call {A} (r : result A) : M A := fun s =>
  (match r with Ok a => Returns a | Throw e => Throws e end, s).

(** [try { body } catch (error) { handler } finally { final }]: the handler
    sees the state as the body left it. *)
Definition try_catch_finally (body handler final : M unit) : M unit :=
  fun s =>
    match body s with
    | (Returns _, s') => final s'
    | (Throws _, s') => (handler ;; final) s'
    | (OutOfFuel, s') => (OutOfFuel, s')
    end.

Definition setIsCollecting (b : bool) : M unit := fun s =>
  (Returns tt,
   {| isCollecting := b; results := results s;
      currentStatus := currentStatus s; toasts := toasts s;
      warnings := warnings s; drawn := drawn s |}).

(** [setResults(f)] with an updater function [f]. *)
Definition setResults (f : list StreetViewResult -> list StreetViewResult)
  : M unit := fun s =>
  (Returns tt,
   {| isCollecting := isCollecting s; results := f (results s);
      currentStatus := currentStatus s; toasts := toasts s;
      warnings := warnings s; drawn := drawn s |}).

Definition setCurrentStatus (msg : string) : M unit := fun s =>
  (Returns tt,
   {| isCollecting := isCollecting s; results := results s;
      currentStatus := msg; toasts := toasts s;
      warnings := warnings s; drawn := drawn s |}).

Definition toast (t : Toast) : M unit := fun s =>
  (Returns tt,
   {| isCollecting := isCollecting s; results := results s;
      currentStatus := currentStatus s; toasts := toasts s ++ [t];
      warnings := warnings s; drawn := drawn s |}).

Definition console_warn : M unit := fun s =>
  (Returns tt,
   {| isCollecting := isCollecting s; results := results s;
      currentStatus := currentStatus s; toasts := toasts s;
      warnings := S (warnings s); drawn := drawn s |}).

Definition statusMessages : list string :=
  [ "Parsing GeoJSON boundary file...";
    "Initializing browser automation...";
    "Loading starting URL with Playwright...";
    "Locating pegman icon...";
    "Detecting Street View blue lines...";
    "Capturing network requests...";
    "Validating coordinates within bounds...";
    "Adjusting map position...";
    "Continuing data collection..." ].

(** ** simulateCollection (lines 111-203) *)

(** The locals of one loop iteration when the [do ... while] is left. *)
Record Locals : Type := mkLocals {
  lat : float;
  lng : float;
  validCoords : bool;
  attempts : nat
}.

Section Collector.

Variable browser : Browser.
Variable config : CollectorConfig.

Definition random : M float := fun s =>
  (Returns (Math_random browser (drawn s)),
   {| isCollecting := isCollecting s; results := results s;
      currentStatus := currentStatus s; toasts := toasts s;
      warnings := warnings s; drawn := S (drawn s) |}).

(** [JSON.parse(fileText)] *)
Definition parse (fileText : string) : result GeoJSON :=
  match JSON_parse browser fileText with
  | Some geojson => Ok geojson
  | None => Throw SyntaxError
  end.

(** Lines 157-158: the candidate drawn from the random values [r1], [r2]. *)
Definition candidate (bounds : Bounds) (r1 r2 : float) : float * float :=
  ((minLat bounds + r1 * (maxLat bounds - minLat bounds))%float,
   (minLng bounds + r2 * (maxLng bounds - minLng bounds))%float).

(** Lines 155-169.  [fuel] bounds the number of iterations of the model;
    [attempts] is the value of the counter on entry. *)
Fixpoint doWhile (geojsonData : GeoJSON) (bounds : Bounds)
         (fuel attempts : nat) : M Locals :=
  match fuel with
  | O => fun s => (OutOfFuel, s)
  | S fuel' =>
      r1 <- random ;;
      let lat := (minLat bounds + r1 * (maxLat bounds - minLat bounds))%float in
      r2 <- random ;;
      let lng := (minLng bounds + r2 * (maxLng bounds - minLng bounds))%float in
      validCoords <- call (isPointInBoundary lat lng geojsonData) ;;
      let attempts := S attempts in
      if (100 <? attempts)%nat then
        console_warn ;;
        ret (mkLocals lat lng validCoords attempts)      (* break *)
      else if negb validCoords then
        doWhile geojsonData bounds fuel' attempts
      else ret (mkLocals lat lng validCoords attempts)
  end.

(** Lines 148-180: the body of the [for] loop at index [i]. *)
Definition iteration (geojsonData : GeoJSON) (bounds : Bounds) (i : nat)
  : M unit :=
  setCurrentStatus
    (nth ((i + 1) mod List.length statusMessages) statusMessages "") ;;
  l <- doWhile geojsonData bounds 101 0 ;;
  if validCoords l then
    r <- random ;;
    let mockResult :=
      {| panoid := "sv_" ++ substring 2 12 (toString36 browser r);
         latitude := lat l;
         longitude := lng l;
         timestamp := Date_toISOString browser i |} in
    setResults (fun prev => prev ++ [mockResult])
  else ret tt.

(** [for (let i = ...; i < config.targetCount; i++)] with [n] iterations
    left. *)
Fixpoint for_ (geojsonData : GeoJSON) (bounds : Bounds) (n i : nat)
  : M unit :=
  match n with
  | O => ret tt
  | S n' =>
      iteration geojsonData bounds i ;;
      for_ geojsonData bounds n' (S i)
  end.

Definition simulateCollection : M unit :=
  setIsCollecting true ;;
  setResults (fun _ => []) ;;
  match boundingFile config with
  | None =>
      toast NoBoundaryFile ;;
      setIsCollecting false
  | Some file =>
      try_catch_finally
        (geojsonData <- call (parse (text file)) ;;
         bounds <- call (getBoundaryBounds geojsonData) ;;
         setCurrentStatus "Boundary file parsed successfully" ;;
         for_ geojsonData bounds (Z.to_nat (targetCount config)) 0 ;;
         setCurrentStatus "Collection completed successfully" ;;
         toast CollectionCompleted)
        (toast CollectionFailed)
        (setIsCollecting false)
  end.

(** Line 216, as the boolean the [disabled] attribute tests. *)
Definition canStartCollection : bool :=
  match boundingFile config with
  | None => false
  | Some _ =>
      negb (String.eqb (startingUrl config) "")
      && (0 <? targetCount config)%Z
  end.

End Collector.

(** ** handleFileUpload (lines 42-57) and the change handlers of the form *)

(** [s.endsWith(suffix)] *)
Definition endsWith (s suffix : string) : bool :=
  (String.length suffix <=? String.length s)%nat
  && String.eqb
       (substring (String.length s - String.length suffix)
          (String.length suffix) s)
       suffix.

(** The two toasts of [handleFileUpload], the first with its description. *)
Inductive UploadToast : Type :=
| BoundaryFileUploaded (description : string)
| InvalidFile.

(** [file] is [event.target.files?.[0]]. *)
Definition handleFileUpload (file : option File) (config : CollectorConfig)
  : CollectorConfig * UploadToast :=
  match file with
  | Some f =>
      if endsWith (name f) ".geojson" then
        ({| boundingFile := Some f;
            startingUrl := startingUrl config;
            targetCount := targetCount config |},
         BoundaryFileUploaded (name f ++ " ready for processing"))
      else (config, InvalidFile)
  | None => (config, InvalidFile)
  end.

(** Line 279. *)
Definition onStartingUrlChange (value : string) (config : CollectorConfig)
  : CollectorConfig :=
  {| boundingFile := boundingFile config;
     startingUrl := value;
     targetCount := targetCount config |}.

(** Line 292: [parseInt(e.target.value) || 0], with [parsed] the integer
    [parseInt] read, [None] when it read none (NaN). *)
Definition onTargetCountChange (parsed : option Z) (config : CollectorConfig)
  : CollectorConfig :=
  {| boundingFile := boundingFile config;
     startingUrl := startingUrl config;
     targetCount := match parsed with Some n => n | None => 0%Z end |}.

(** Lines 29-35: the configuration the component starts with. *)
Definition initialConfig : CollectorConfig :=
  {| boundingFile := None; startingUrl := ""; targetCount := 100 |}.

(** What the user does to the form, and the configuration after a sequence
    of such events.  The handlers of the two optional parameters (lines 311
    and 327) write [density] and [fixedZoom] only, which no function modelled
    here reads: they leave the three fields of the record as they are. *)
Inductive FormEvent : Type :=
| FileChosen (file : option File)
| UrlTyped (value : string)
| CountTyped (parsed : option Z)
| OptionalTyped.

Definition handle (config : CollectorConfig) (e : FormEvent)
  : CollectorConfig :=
  match e with
  | FileChosen file => fst (handleFileUpload file config)
  | UrlTyped value => onStartingUrlChange value config
  | CountTyped parsed => onTargetCountChange parsed config
  | OptionalTyped => config
  end.

Definition afterEvents (es : list FormEvent) : CollectorConfig :=
  fold_left handle es initialConfig.

(** ** The earlier version of simulateCollection (lines 495-546)

    The second half of the file holds an earlier version of the component,
    whose collection loop knows no boundary. *)

Module Legacy.

Definition statusMessages : list string :=
  [ "Initializing browser automation...";
    "Loading starting URL with Playwright...";
    "Locating pegman icon...";
    "Detecting Street View blue lines...";
    "Capturing network requests...";
    "Validating coordinates within bounds...";
    "Adjusting map position...";
    "Continuing data collection..." ].

#[local] Set Warnings "-inexact-float".

(** Lines 517-522: the object literal, from the three random values in the
    order of its fields. *)
Definition mockResult (browser : Browser) (r1 r2 r3 : float) (i : nat)
  : StreetViewResult :=
  {| panoid := "sv_" ++ substring 2 12 (toString36 browser r1);
     latitude := (40.7128 + (r2 - 0.5) * 0.01)%float;
     longitude := (-74.0060 + (r3 - 0.5) * 0.01)%float;
     timestamp := Date_toISOString browser i |}.

#[local] Set Warnings "+inexact-float".

Definition iteration (browser : Browser) (i : nat) : M unit :=
  setCurrentStatus
    (nth (i mod List.length statusMessages) statusMessages "") ;;
  r1 <- random browser ;;
  r2 <- random browser ;;
  r3 <- random browser ;;
  setResults (fun prev => prev ++ [mockResult browser r1 r2 r3 i]).

Fixpoint for_ (browser : Browser) (n i : nat) : M unit :=
  match n with
  | O => ret tt
  | S n' => iteration browser i ;; for_ browser n' (S i)
  end.

Definition simulateCollection (browser : Browser) (config : CollectorConfig)
  : M unit :=
  setIsCollecting true ;;
  setResults (fun _ => []) ;;
  try_catch_finally
    (for_ browser (Z.to_nat (targetCount config)) 0 ;;
     setCurrentStatus "Collection completed successfully" ;;
     toast CollectionCompleted)
    (toast CollectionFailed)
    (setIsCollecting false).

(** The point of slot [j], from the random values [3 j], [3 j + 1] and
    [3 j + 2]. *)
Definition point (browser : Browser) (j : nat) : StreetViewResult :=
  mockResult browser (Math_random browser (3 * j))
    (Math_random browser (3 * j + 1)) (Math_random browser (3 * j + 2)) j.

End Legacy.

(** ** The containment test as the specification words it

    Edge [i] joins vertex [i] and vertex [i - 1], the last vertex standing
    before the first.  The edge is crossed when its endpoints straddle the
    latitude of the point and the longitude at which the horizontal ray meets
    it exceeds the longitude of the point; the flag is toggled on each
    crossed edge.  The specification does not write the intersection
    longitude out; it is taken as line 83 computes it. *)

Module Spec.

Definition straddles (y : float) (vi vj : Position) : bool :=
  (Js.gt (snd vi) y && negb (Js.gt (snd vj) y))
  || (Js.gt (snd vj) y && negb (Js.gt (snd vi) y)).

Definition intersectionLng (y : float) (vi vj : Position) : float :=
  ((fst vj - fst vi) * (y - snd vi) / (snd vj - snd vi) + fst vi)%float.

Definition crossed (x y : float) (vi vj : Position) : bool :=
  straddles y vi vj && Js.gt (intersectionLng y vi vj) x.

(** Vertex [i] and its predecessor, with wraparound. *)
Definition edge (polygon : Ring) (i : nat) : Position * Position :=
  let n := List.length polygon in
  (nth i polygon noVertex, nth ((i + n - 1) mod n) polygon noVertex).

Definition edges (polygon : Ring) : list (Position * Position) :=
  map (edge polygon) (seq 0 (List.length polygon)).

Definition toggle (x y : float) (inside : bool) (e : Position * Position)
  : bool :=
  if crossed x y (fst e) (snd e) then negb inside else inside.

Definition contains (lat lng : float) (polygon : Ring) : bool :=
  fold_left (toggle lng lat) (edges polygon) false.

(** The even-odd rule: the parity of the number of crossed edges. *)
Definition evenOdd (lat lng : float) (polygon : Ring) : bool :=
  Nat.odd
    (List.length
       (filter (fun e => crossed lng lat (fst e) (snd e)) (edges polygon))).

(** The ring read from another starting vertex. *)
Definition rotate (k : nat) (polygon : Ring) : Ring :=
  skipn k polygon ++ firstn k polygon.

(** The vertices the bounds are taken over: the first ring of every
    feature whose geometry is a Polygon. *)
Definition vertices (fs : list Feature) : list Position :=
  flat_map
    (fun feature =>
       match geometry feature with
       | Some g =>
           if String.eqb (type g) "Polygon"
           then hd [] (coordinates g) else []
       | None => []
       end) fs.

Definition boundaryVertices (geojson : GeoJSON) : list Position :=
  match geojson with
  | Some {| features := Some fs |} => vertices fs
  | _ => []
  end.

(** [JSON.parse] yields finite numbers and, on overflow, the infinities;
    it never yields NaN. *)
Definition jsonNumber (v : float) : Prop := PrimFloat.is_nan v = false.

Definition jsonPosition (p : Position) : Prop :=
  jsonNumber (fst p) /\ jsonNumber (snd p).

(** The rectangle [b] contains the position [p]. *)
Definition inside (b : Bounds) (p : Position) : Prop :=
  Js.le (minLat b) (snd p) = true /\ Js.le (snd p) (maxLat b) = true
  /\ Js.le (minLng b) (fst p) = true /\ Js.le (fst p) (maxLng b) = true.

(** The documents on which the two traversals do not throw: every feature
    has a geometry and every Polygon has a first ring. *)
Definition traversable (fs : list Feature) : bool :=
  forallb
    (fun feature =>
       match geometry feature with
       | Some g =>
           if String.eqb (type g) "Polygon"
           then match coordinates g with [] => false | _ :: _ => true end
           else true
       | None => false
       end) fs.

Definition traversableDoc (geojson : GeoJSON) : bool :=
  match geojson with
  | Some {| features := Some fs |} => traversable fs
  | _ => true
  end.




(** The parsed document is null, or has no [features] field. *)
Definition lacksFeatures (geojson : GeoJSON) : bool :=
  match geojson with
  | Some {| features := Some _ |} => false
  | _ => true
  end.

End Spec.


(** ** Documents used in the examples *)

Definition polygonFeature (rings : list Ring) : Feature :=
  {| geometry := Some {| type := "Polygon"; coordinates := rings |} |}.

Definition collection (fs : list Feature) : GeoJSON :=
  Some {| features := Some fs |}.

(** The square of the specification's scenarios. *)
Definition square : Ring :=
  [(0, 0); (0, 10); (10, 10); (10, 0)]%float.

Definition squareDoc : GeoJSON := collection [polygonFeature [square]].

(** A FeatureCollection without features. *)
Definition emptyDoc : GeoJSON := collection [].

(** The square with a hole ring from (4,4) to (6,6). *)
Definition hole : Ring :=
  [(4, 4); (6, 4); (6, 6); (4, 6)]%float.

Definition holedDoc : GeoJSON := collection [polygonFeature [square; hole]].

(** A right triangle: half of its bounding box lies outside it. *)
Definition triangle : Ring := [(0, 0); (10, 0); (0, 10)]%float.

Definition triangleDoc : GeoJSON := collection [polygonFeature [triangle]].

(** A browser whose parser yields [doc] and whose random source is
    [random]. *)
Definition browserWith (doc : GeoJSON) (random : nat -> float) : Browser :=
  {| Math_random := random;
     Date_toISOString := fun _ => "2024-01-01T00:00:00.000Z";
     toString36 := fun _ => "0.4fzyo82mvyr";
     JSON_parse := fun _ => Some doc |}.

Definition configWith (n : Z) : CollectorConfig :=
  {| boundingFile := Some {| name := "area.geojson"; text := "{...}" |};
     startingUrl := "https://www.google.com/maps";
     targetCount := n |}.

(** Candidates alternate between (lat 2.5, lng 5) and (lat 5, lng 2.5). *)
Definition alternating (n : nat) : float :=
  if Nat.even n then 0.25%float else 0.5%float.

(** The first 100 candidates are (8.75, 8.75), outside the triangle; every
    later one is (1.25, 1.25), inside it. *)
Definition lateHit (n : nat) : float :=
  if (n <? 200)%nat then 0.875%float else 0.125%float.

(** Every candidate is (8.75, 8.75). *)
Definition neverHit (n : nat) : float := 0.875%float.

(** The first candidate is (8.75, 8.75), every later one (1.25, 1.25). *)
Definition secondHit (n : nat) : float :=
  if (n <? 2)%nat then 0.875%float else 0.125%float.

(** ** Views of the loops used in the proofs *)

(** The edges the loop of [pointInPolygon] meets from a given predecessor
    vertex on. *)
Fixpoint edgesFrom (prev : Position) (l : Ring)
  : list (Position * Position) :=
  match l with
  | [] => []
  | v :: l' => (v, prev) :: edgesFrom v l'
  end.

(** One pass through the loop body, and the flag after a list of edges. *)
Definition flip (x y : float) (inside : bool) (e : Position * Position)
  : bool :=
  if crosses x y (fst e) (snd e) then negb inside else inside.

Definition parity (x y : float) (es : list (Position * Position)) : bool :=
  fold_left (flip x y) es false.

(** The rectangle holds numbers and contains the vertices seen so far. *)
Definition encloses (b : Bounds) (seen : list Position) : Prop :=
  (Spec.jsonNumber (minLat b) /\ Spec.jsonNumber (maxLat b)
   /\ Spec.jsonNumber (minLng b) /\ Spec.jsonNumber (maxLng b))
  /\ forall p, In p seen -> Spec.inside b p.

(** The containment check throws at some point of the plane. *)
Definition checkThrows (geojsonData : GeoJSON) : Prop :=
  exists lat lng e, isPointInBoundary lat lng geojsonData = Throw e.

(** A point that passed the containment check. *)
Definition accepted (geojsonData : GeoJSON) (p : StreetViewResult) : Prop :=
  isPointInBoundary (latitude p) (longitude p) geojsonData = Ok true.

(** The state [s'] extends the result sequence of [s] by at most [n] points,
    all of which passed the containment check, and has the same toasts. *)
Definition extends (geojsonData : GeoJSON) (n : nat) (s s' : State) : Prop :=
  toasts s' = toasts s
  /\ exists added,
       results s' = results s ++ added
       /\ List.length added <= n
       /\ Forall (accepted geojsonData) added.

(** What a run of [simulateCollection] leaves behind. *)
Definition outcomeOf (browser : Browser) (config : CollectorConfig)
           (s' : State) : Prop :=
  match boundingFile config with
  | None => results s' = [] /\ toasts s' = [NoBoundaryFile]
  | Some file =>
      match parse browser (text file) with
      | Throw _ => results s' = [] /\ toasts s' = [CollectionFailed]
      | Ok geojsonData =>
          match getBoundaryBounds geojsonData with
          | Throw _ => results s' = [] /\ toasts s' = [CollectionFailed]
          | Ok _ =>
              toasts s' = [CollectionCompleted]
              /\ List.length (results s') <= Z.to_nat (targetCount config)
              /\ Forall (accepted geojsonData) (results s')
          end
      end
  end.

(** ** Further views of the boundary document *)

(** The rings the two traversals read: [coordinates[0]] of every Polygon
    feature, in document order. *)
Definition polygonRings (fs : list Feature) : list Ring :=
  flat_map
    (fun feature =>
       match geometry feature with
       | Some g =>
           if String.eqb (type g) "Polygon"
           then firstn 1 (coordinates g) else []
       | None => []
       end) fs.

(** The ring closed the GeoJSON way, by repeating its first vertex. *)
Definition closeRing (polygon : Ring) : Ring :=
  match polygon with
  | [] => []
  | v :: _ => polygon ++ [v]
  end.

(** ** States of a run of [simulateCollection] *)

(** The state in which the sampling loop is entered. *)
Definition samplingStart : State :=
  {| isCollecting := true; results := [];
     currentStatus := "Boundary file parsed successfully";
     toasts := []; warnings := 0; drawn := 0 |}.

(** The state lines 188-201 make of the state [s] the loop ended in. *)
Definition completed (s : State) : State :=
  {| isCollecting := false; results := results s;
     currentStatus := "Collection completed successfully";
     toasts := toasts s ++ [CollectionCompleted];
     warnings := warnings s; drawn := drawn s |}.

(** The state after a run that did not reach the loop, with its toast. *)
Definition stopped (t : Toast) : State :=
  {| isCollecting := false; results := []; currentStatus := "";
     toasts := [t]; warnings := 0; drawn := 0 |}.

(** The [k]-th candidate of a slot entered in state [s]. *)
Definition slotCandidate (browser : Browser) (bounds : Bounds) (s : State)
           (k : nat) : float * float :=
  candidate bounds (Math_random browser (drawn s + 2 * k))
    (Math_random browser (S (drawn s + 2 * k))).

(** The value of the containment check on a candidate. *)
Definition verdict (geojsonData : GeoJSON) (c : float * float)
  : result bool :=
  isPointInBoundary (fst c) (snd c) geojsonData.

(** The cost of one slot, in numbers: between 3 and 203 random values, at
    most one warning, at most one point, and a point or a warning. *)
Definition slotCost (s s' : State) : Prop :=
  drawn s + 3 <= drawn s' <= drawn s + 203
  /\ warnings s <= warnings s' <= warnings s + 1
  /\ List.length (results s') <= List.length (results s) + 1
  /\ List.length (results s) + warnings s + 1
     <= List.length (results s') + warnings s'.

(** Every candidate the random source can produce gets the verdict [v]. *)
Definition allCandidates (browser : Browser) (geojsonData : GeoJSON)
           (bounds : Bounds) (v : bool) : Prop :=
  forall n m,
    verdict geojsonData
      (candidate bounds (Math_random browser n) (Math_random browser m))
    = Ok v.

(** * Properties *)

(** ** The containment test *)

Section Containment.

Variables x y : float.

Lemma fold_flip_xorb es inside :
  fold_left (flip x y) es inside = xorb inside (parity x y es).
Proof.
  unfold parity. revert inside.
  induction es as [|e es IH]; intros inside; simpl.
  - now rewrite xorb_false_r.
  - rewrite (IH (flip x y inside e)), (IH (flip x y false e)).
    generalize (fold_left (flip x y) es false). intros b. unfold flip.
    destruct (crosses x y (fst e) (snd e)), inside, b; reflexivity.
Qed.

Lemma parity_app es1 es2 :
  parity x y (es1 ++ es2) = xorb (parity x y es1) (parity x y es2).
Proof.
  unfold parity at 1. rewrite fold_left_app.
  fold (parity x y es1). apply fold_flip_xorb.
Qed.

Lemma last_cons_any {A} (v : A) l d1 d2 :
  last (v :: l) d1 = last (v :: l) d2.
Proof.
  revert v. induction l as [|w l IH]; intros v; [reflexivity|].
  change (last (w :: l) d1 = last (w :: l) d2). apply IH.
Qed.

Lemma edgesFrom_app prev l1 l2 :
  edgesFrom prev (l1 ++ l2)
  = edgesFrom prev l1 ++ edgesFrom (last l1 prev) l2.
Proof.
  revert prev. induction l1 as [|v l1 IH]; intros prev; simpl.
  - reflexivity.
  - rewrite IH. f_equal. f_equal. f_equal.
    destruct l1 as [|w l1]; [reflexivity|]. apply last_cons_any.
Qed.

Lemma skipn_nth_cons {A} (l : list A) (d0 : A) i :
  i < List.length l -> skipn i l = nth i l d0 :: skipn (S i) l.
Proof.
  revert i. induction l as [|v l IH]; intros i Hi; simpl in Hi; [lia|].
  destruct i as [|i]; [reflexivity|].
  change (skipn i l = nth i l d0 :: skipn (S i) l). apply IH. lia.
Qed.

(** The loop at index [i], with [j] pointing at the previous vertex. *)
Lemma pointInPolygon_for_edges polygon n i j inside :
  i + n = List.length polygon ->
  pointInPolygon_for x y polygon n i j inside
  = fold_left (flip x y) (edgesFrom (nth j polygon noVertex) (skipn i polygon)) inside.
Proof.
  revert i j inside.
  induction n as [|n IH]; intros i j inside Hlen; simpl.
  - rewrite skipn_all2 by lia. reflexivity.
  - rewrite IH by lia.
    rewrite (skipn_nth_cons polygon noVertex i) by lia. reflexivity.
Qed.

Lemma nth_last {A} (l : list A) (d0 : A) :
  nth (List.length l - 1) l d0 = last l d0.
Proof.
  induction l as [|v l IH]; [reflexivity|].
  destruct l as [|w l]; [reflexivity|].
  change (last (v :: w :: l) d0) with (last (w :: l) d0).
  rewrite <- IH. simpl. now rewrite Nat.sub_0_r.
Qed.

Lemma pointInPolygon_parity polygon :
  pointInPolygon (x, y) polygon
  = parity x y (edgesFrom (last polygon noVertex) polygon).
Proof.
  unfold pointInPolygon, parity.
  rewrite pointInPolygon_for_edges by lia.
  rewrite nth_last. reflexivity.
Qed.

Lemma last_app_cons {A} (l1 : list A) v l2 d0 :
  last (l1 ++ v :: l2) d0 = last (v :: l2) d0.
Proof.
  induction l1 as [|w l1 IH]; [reflexivity|].
  rewrite <- IH. simpl. destruct (l1 ++ v :: l2) eqn:E; [|reflexivity].
  now destruct l1.
Qed.

Lemma parity_swap l1 l2 :
  parity x y (edgesFrom (last (l2 ++ l1) noVertex) (l2 ++ l1))
  = parity x y (edgesFrom (last (l1 ++ l2) noVertex) (l1 ++ l2)).
Proof.
  destruct l1 as [|a l1]; [now rewrite app_nil_r|].
  destruct l2 as [|b l2]; [now rewrite app_nil_r|].
  rewrite !edgesFrom_app, !parity_app.
  rewrite !last_app_cons.
  rewrite (last_cons_any b l2 (last (a :: l1) noVertex) noVertex).
  rewrite (last_cons_any a l1 (last (b :: l2) noVertex) noVertex).
  apply xorb_comm.
Qed.

(** The code's condition is the specification's "straddles and exceeds". *)
Lemma crossed_crosses vi vj : Spec.crossed x y vi vj = crosses x y vi vj.
Proof.
  destruct vi as [xi yi], vj as [xj yj].
  unfold Spec.crossed, Spec.straddles, Spec.intersectionLng, crosses,
    Js.gt, Js.lt. simpl.
  destruct (PrimFloat.ltb y yi), (PrimFloat.ltb y yj); reflexivity.
Qed.

Lemma fold_toggle_flip es inside :
  fold_left (Spec.toggle x y) es inside = fold_left (flip x y) es inside.
Proof.
  revert inside. induction es as [|e es IH]; intros inside; simpl.
  - reflexivity.
  - rewrite IH. unfold Spec.toggle, flip.
    now rewrite crossed_crosses.
Qed.

(** Toggling on every crossed edge leaves the parity of their number. *)
Lemma fold_toggle_odd es inside :
  fold_left (Spec.toggle x y) es inside
  = xorb inside
      (Nat.odd (List.length
         (filter (fun e => Spec.crossed x y (fst e) (snd e)) es))).
Proof.
  revert inside. induction es as [|e es IH]; intros inside; simpl.
  - now rewrite xorb_false_r.
  - rewrite IH. unfold Spec.toggle.
    destruct (Spec.crossed x y (fst e) (snd e)); [|reflexivity].
    cbn [List.length]. rewrite Nat.odd_succ, <- Nat.negb_odd.
    destruct inside, (Nat.odd _); reflexivity.
Qed.

(** The specification's edge list is the one the loop walks. *)
Lemma edges_from_index polygon m i :
  i + m = List.length polygon ->
  map (Spec.edge polygon) (seq i m)
  = edgesFrom
      (nth ((i + List.length polygon - 1) mod List.length polygon) polygon noVertex)
      (skipn i polygon).
Proof.
  revert i. induction m as [|m IH]; intros i Hlen; simpl.
  - rewrite skipn_all2 by lia. reflexivity.
  - rewrite (skipn_nth_cons polygon noVertex i) by lia. simpl.
    rewrite IH by lia. unfold Spec.edge at 1.
    do 3 f_equal.
    replace (S i + List.length polygon - 1) with (i + 1 * List.length polygon)
      by lia.
    rewrite Nat.Div0.mod_add. now rewrite Nat.mod_small by lia.
Qed.

Lemma edges_edgesFrom polygon :
  Spec.edges polygon = edgesFrom (last polygon noVertex) polygon.
Proof.
  unfold Spec.edges. rewrite edges_from_index by lia. simpl.
  destruct polygon as [|v l]; [reflexivity|].
  rewrite Nat.mod_small by (simpl; lia).
  now rewrite nth_last.
Qed.

End Containment.

(** C5: for every point and every vertex list, [pointInPolygon] returns the
    even-odd ray-casting result: the flag obtained by walking the edges
    (vertex i, vertex i-1, with wraparound) and toggling exactly on the edges
    whose endpoints straddle the latitude of the point and whose ray
    intersection longitude exceeds its longitude, which is the parity of the
    number of such edges. *)
Theorem pointInPolygon_even_odd (lat lng : float) (polygon : Ring) :
  pointInPolygon (lng, lat) polygon = Spec.contains lat lng polygon
  /\ pointInPolygon (lng, lat) polygon = Spec.evenOdd lat lng polygon.
Proof.
  assert (H : pointInPolygon (lng, lat) polygon = Spec.contains lat lng polygon).
  { rewrite pointInPolygon_parity. unfold Spec.contains, parity.
    now rewrite fold_toggle_flip, edges_edgesFrom. }
  split; [exact H|].
  rewrite H. unfold Spec.contains, Spec.evenOdd.
  now rewrite fold_toggle_odd.
Qed.

(** C6: the containment test gives the same answer when the vertex list is
    cyclically rotated to start at another vertex. *)
Theorem pointInPolygon_rotate (point : Position) (polygon : Ring) (k : nat) :
  pointInPolygon point (Spec.rotate k polygon) = pointInPolygon point polygon.
Proof.
  destruct point as [x y]. unfold Spec.rotate.
  rewrite !pointInPolygon_parity.
  rewrite (parity_swap x y (firstn k polygon) (skipn k polygon)).
  now rewrite firstn_skipn.
Qed.

(** ** The order of JavaScript numbers

    [<] and [<=] on numbers that are not NaN form a total preorder; the facts
    are read off the specification of the primitive comparisons. *)

Module FloatOrder.

Definition sfNaN (v : spec_float) : bool :=
  match v with S754_nan => true | _ => false end.

Ltac compare_cases :=
  repeat match goal with
  | |- context [Z.compare ?a ?b] => destruct (Z.compare_spec a b)
  | |- context [Pos.compare_cont Eq ?a ?b] =>
      change (Pos.compare_cont Eq a b) with (Pos.compare a b);
      destruct (Pos.compare_spec a b)
  | H : context [Z.compare ?a ?b] |- _ => destruct (Z.compare_spec a b)
  | H : context [Pos.compare_cont Eq ?a ?b] |- _ =>
      change (Pos.compare_cont Eq a b) with (Pos.compare a b) in H;
      destruct (Pos.compare_spec a b)
  end.

Ltac by_cases :=
  simpl; try discriminate; try reflexivity;
  repeat match goal with s : bool |- _ => destruct s end;
  simpl; try discriminate; try reflexivity;
  intros; compare_cases; subst; simpl in *;
  try discriminate; try reflexivity; try lia.

Lemma SFleb_trans u v w :
  SFleb u v = true -> SFleb v w = true -> SFleb u w = true.
Proof.
  unfold SFleb.
  destruct u as [su|su| |su mu eu], v as [sv|sv| |sv mv ev],
           w as [sw|sw| |sw mw ew]; by_cases.
Qed.

Lemma SFltb_false_leb u v :
  sfNaN u = false -> sfNaN v = false ->
  SFltb u v = false -> SFleb v u = true.
Proof.
  unfold SFleb, SFltb.
  destruct u as [su|su| |su mu eu], v as [sv|sv| |sv mv ev]; by_cases.
Qed.

Lemma SFltb_irrefl u : SFltb u u = false.
Proof.
  unfold SFltb.
  destruct u as [su|su| |su mu eu]; simpl; try reflexivity;
    destruct su; simpl; try reflexivity;
    rewrite Z.compare_refl;
    change (Pos.compare_cont Eq mu mu) with (Pos.compare mu mu);
    rewrite Pos.compare_refl; reflexivity.
Qed.

Lemma is_nan_spec a : PrimFloat.is_nan a = sfNaN (Prim2SF a).
Proof.
  unfold PrimFloat.is_nan. rewrite FloatAxioms.eqb_spec. unfold SFeqb.
  destruct (Prim2SF a) as [s|s| |s m e]; simpl; try reflexivity;
    destruct s; simpl; try reflexivity;
    rewrite Z.compare_refl;
    change (Pos.compare_cont Eq m m) with (Pos.compare m m);
    rewrite Pos.compare_refl; reflexivity.
Qed.

Lemma le_trans a b c :
  Js.le a b = true -> Js.le b c = true -> Js.le a c = true.
Proof. unfold Js.le. rewrite !leb_spec. apply SFleb_trans. Qed.

Lemma lt_false_le a b :
  PrimFloat.is_nan a = false -> PrimFloat.is_nan b = false ->
  Js.lt a b = false -> Js.le b a = true.
Proof.
  unfold Js.lt, Js.le. rewrite !is_nan_spec, ltb_spec, leb_spec.
  apply SFltb_false_leb.
Qed.

Lemma le_refl a : PrimFloat.is_nan a = false -> Js.le a a = true.
Proof.
  intros Ha. apply lt_false_le; try assumption.
  unfold Js.lt. rewrite ltb_spec. apply SFltb_irrefl.
Qed.

Lemma lt_le a b : Js.lt a b = true -> Js.le a b = true.
Proof.
  unfold Js.lt, Js.le. rewrite ltb_spec, leb_spec.
  unfold SFltb, SFleb. now destruct (SFcompare _ _) as [[| |]|].
Qed.

(** [Math.min] of two numbers is one of them and lies below both. *)
Lemma Math_min_spec a b :
  PrimFloat.is_nan a = false -> PrimFloat.is_nan b = false ->
  PrimFloat.is_nan (Js.Math_min a b) = false
  /\ Js.le (Js.Math_min a b) a = true /\ Js.le (Js.Math_min a b) b = true.
Proof.
  intros Ha Hb. unfold Js.Math_min. rewrite Ha, Hb. simpl.
  destruct (PrimFloat.ltb a b) eqn:Hab.
  { auto using le_refl, lt_le. }
  destruct (PrimFloat.ltb b a) eqn:Hba.
  { auto using le_refl, lt_le. }
  destruct (PrimFloat.get_sign a); auto using le_refl, lt_false_le.
Qed.

Lemma Math_max_spec a b :
  PrimFloat.is_nan a = false -> PrimFloat.is_nan b = false ->
  PrimFloat.is_nan (Js.Math_max a b) = false
  /\ Js.le a (Js.Math_max a b) = true /\ Js.le b (Js.Math_max a b) = true.
Proof.
  intros Ha Hb. unfold Js.Math_max. rewrite Ha, Hb. simpl.
  destruct (PrimFloat.ltb a b) eqn:Hab.
  { auto using le_refl, lt_le. }
  destruct (PrimFloat.ltb b a) eqn:Hba.
  { auto using le_refl, lt_le. }
  destruct (PrimFloat.get_sign a); auto using le_refl, lt_false_le.
Qed.

End FloatOrder.

(** ** The bounds calculator *)

(** On a traversable feature list the two nested [forEach] fold [extend]
    over the vertices; on any other list they throw. *)
Lemma getBoundaryBounds_forEach_vertices fs b :
  Spec.traversable fs = true ->
  getBoundaryBounds_forEach fs b
  = Ok (fold_left extend (Spec.vertices fs) b).
Proof.
  revert b. induction fs as [|feature fs IH]; intros b Hwf; simpl in *.
  - reflexivity.
  - apply andb_prop in Hwf. destruct Hwf as [Hf Hfs].
    destruct (geometry feature) as [g|]; [|discriminate].
    destruct (String.eqb (type g) "Polygon").
    + destruct (coordinates g) as [|ring0 rings]; [discriminate|].
      simpl. rewrite fold_left_app. now apply IH.
    + now apply IH.
Qed.

Lemma getBoundaryBounds_forEach_returns fs b b' :
  getBoundaryBounds_forEach fs b = Ok b' -> Spec.traversable fs = true.
Proof.
  revert b. induction fs as [|feature fs IH]; intros b H; simpl in *.
  - reflexivity.
  - destruct (geometry feature) as [g|]; [|discriminate].
    destruct (String.eqb (type g) "Polygon").
    + destruct (coordinates g) as [|ring0 rings]; [discriminate|].
      simpl. eauto.
    + simpl. eauto.
Qed.

Lemma getBoundaryBounds_vertices geojson b :
  getBoundaryBounds geojson = Ok b ->
  b = fold_left extend (Spec.boundaryVertices geojson) initialBounds.
Proof.
  destruct geojson as [[[fs|]]|]; simpl; intros H;
    try (injection H as <-; reflexivity).
  pose proof (getBoundaryBounds_forEach_returns _ _ _ H) as Hwf.
  rewrite getBoundaryBounds_forEach_vertices in H by assumption.
  now injection H as <-.
Qed.

Lemma encloses_initial : encloses initialBounds [].
Proof. split; [repeat split; reflexivity | intros p []]. Qed.

Lemma encloses_extend b seen p :
  encloses b seen -> Spec.jsonPosition p -> encloses (extend b p) (p :: seen).
Proof.
  intros [(Hn1 & Hn2 & Hn3 & Hn4) Hin] [Hx Hy].
  destruct p as [lng lat]. simpl in Hx, Hy.
  destruct (FloatOrder.Math_min_spec (minLat b) lat Hn1 Hy) as (A1 & A2 & A3).
  destruct (FloatOrder.Math_max_spec (maxLat b) lat Hn2 Hy) as (B1 & B2 & B3).
  destruct (FloatOrder.Math_min_spec (minLng b) lng Hn3 Hx) as (C1 & C2 & C3).
  destruct (FloatOrder.Math_max_spec (maxLng b) lng Hn4 Hx) as (D1 & D2 & D3).
  split; [repeat split; assumption|].
  intros q [<-|Hq].
  - repeat split; assumption.
  - destruct (Hin q Hq) as (I1 & I2 & I3 & I4).
    repeat split; simpl; eauto using FloatOrder.le_trans.
Qed.

Lemma encloses_fold vs : forall b seen,
  encloses b seen -> Forall Spec.jsonPosition vs ->
  encloses (fold_left extend vs b) (rev vs ++ seen).
Proof.
  induction vs as [|v vs IH]; intros b seen Hb Hvs; simpl.
  - assumption.
  - inversion Hvs as [|? ? Hv Hvs']; subst.
    rewrite <- app_assoc. simpl. apply IH; [|assumption].
    now apply encloses_extend.
Qed.

(** C8: on every boundary with at least one vertex, the computed rectangle
    has [minLat <= maxLat] and [minLng <= maxLng] and contains every vertex of
    every polygon.  The coordinates are numbers as [JSON.parse] yields them:
    finite or, on overflow, infinite, and never NaN. *)
Theorem getBoundaryBounds_encloses (geojson : GeoJSON) (b : Bounds) :
  getBoundaryBounds geojson = Ok b ->
  Forall Spec.jsonPosition (Spec.boundaryVertices geojson) ->
  Spec.boundaryVertices geojson <> [] ->
  Js.le (minLat b) (maxLat b) = true
  /\ Js.le (minLng b) (maxLng b) = true
  /\ forall p, In p (Spec.boundaryVertices geojson) -> Spec.inside b p.
Proof.
  intros Hb Hnum Hne.
  apply getBoundaryBounds_vertices in Hb.
  pose proof (encloses_fold _ _ _ encloses_initial Hnum) as [_ Hin].
  rewrite <- Hb, app_nil_r in Hin.
  assert (Hall : forall p, In p (Spec.boundaryVertices geojson) ->
                           Spec.inside b p).
  { intros p Hp. apply Hin. now apply in_rev in Hp. }
  destruct (Spec.boundaryVertices geojson) as [|v vs]; [contradiction|].
  destruct (Hall v (or_introl eq_refl)) as (I1 & I2 & I3 & I4).
  eauto using FloatOrder.le_trans.
Qed.

Lemma getBoundaryBounds_encloses_witness :
  Js.le 0 10 = true /\ Js.le 0 10 = true
  /\ forall p, In p square ->
       Spec.inside {| minLat := 0; maxLat := 10; minLng := 0; maxLng := 10 |} p.
Proof.
  apply (getBoundaryBounds_encloses squareDoc
           {| minLat := 0; maxLat := 10; minLng := 0; maxLng := 10 |}).
  - reflexivity.
  - repeat constructor.
  - discriminate.
Defined.

(** A traversable document always gets a rectangle. *)
Lemma getBoundaryBounds_returns fs :
  Spec.traversable fs = true ->
  exists b, getBoundaryBounds (collection fs) = Ok b.
Proof.
  intros H. eexists. simpl. now apply getBoundaryBounds_forEach_vertices.
Qed.




(** Without a number in a coordinate the order is lost: a NaN longitude
    makes both longitude bounds NaN.  [JSON.parse] yields no NaN, and the
    code types every position as a pair of numbers. *)
Example nan_vertex_bounds :
  getBoundaryBounds (collection [polygonFeature [[(Js.NaN, 0%float)]]])
  = Ok {| minLat := 0; maxLat := 0; minLng := Js.NaN; maxLng := Js.NaN |}
  /\ Js.le Js.NaN Js.NaN = false.
Proof. split; reflexivity. Qed.

(** [Math.min] and [Math.max] on the special values. *)
Example Math_min_max_special :
  Js.Math_min Js.Infinity 3 = 3%float
  /\ Js.Math_max (- Js.Infinity) 3 = 3%float
  /\ Js.Math_min 0 (-0) = (-0)%float
  /\ Js.Math_max (-0) 0 = 0%float
  /\ Js.Math_min Js.NaN 1 = Js.NaN.
Proof. repeat split; reflexivity. Qed.

(** The rectangle of the specification's square. *)
Example square_bounds :
  getBoundaryBounds squareDoc
  = Ok {| minLat := 0; maxLat := 10; minLng := 0; maxLng := 10 |}.
Proof. reflexivity. Qed.

(** ** Which parts of the document are read *)




(** The point (5,5) lies in the hole of [holedDoc] and is reported inside;
    the hole does not shrink the rectangle either. *)
Example point_in_hole_is_inside :
  pointInPolygon (5, 5)%float hole = true
  /\ isPointInBoundary 5 5 holedDoc = Ok true.
Proof. split; reflexivity. Qed.

(** A geometry whose type differs from ['Polygon'] in case only is not
    read. *)
Example lowercase_polygon_ignored :
  isPointInBoundary 5 5
    (collection [{| geometry :=
                      Some {| type := "polygon"; coordinates := [square] |} |}])
  = Ok false.
Proof. reflexivity. Qed.

(** ** Malformed documents *)

(** With a null geometry, or a Polygon without rings, both traversals throw
    a TypeError. *)
Example null_geometry_throws :
  isPointInBoundary 5 5 (collection [{| geometry := None |}])
  = Throw TypeError
  /\ getBoundaryBounds (collection [polygonFeature []]) = Throw TypeError.
Proof. split; reflexivity. Qed.

(** The scenario of the specification: (5,5) is inside the square, (15,15)
    is not. *)
Example square_contains_5_5 : pointInPolygon (5, 5)%float square = true.
Proof. reflexivity. Qed.

Example square_excludes_15_15 : pointInPolygon (15, 15)%float square = false.
Proof. reflexivity. Qed.

(** ** The sampler *)

(** Runs the monad's glue and the field projections, and nothing else. *)
Tactic Notation "run" :=
  cbn [bind ret call random console_warn setCurrentStatus setResults
       setIsCollecting toast try_catch_finally
       isCollecting results currentStatus toasts warnings drawn
       lat lng validCoords attempts fst snd negb];
  unfold ret.

Tactic Notation "run" "in" hyp(H) :=
  cbn [bind ret call random console_warn setCurrentStatus setResults
       setIsCollecting toast try_catch_finally
       isCollecting results currentStatus toasts warnings drawn
       lat lng validCoords attempts fst snd negb] in H.

Section Sampler.

Variable browser : Browser.
Variable geojsonData : GeoJSON.
Variable bounds : Bounds.

(** The [do ... while] terminates within its fuel: it returns the last
    candidate with the verdict of the containment check on that candidate,
    after at most 101 attempts, or it throws; the result sequence and the
    toasts are untouched. *)
Lemma doWhile_returns fuel : forall attempts0 s,
  attempts0 <= 100 -> 101 <= fuel + attempts0 ->
  match doWhile browser geojsonData bounds fuel attempts0 s with
  | (Returns l, s') =>
      results s' = results s /\ toasts s' = toasts s
      /\ isPointInBoundary (lat l) (lng l) geojsonData = Ok (validCoords l)
      /\ attempts0 < attempts l <= 101
      /\ drawn s' = drawn s + 2 * (attempts l - attempts0)
  | (Throws _, s') =>
      results s' = results s /\ toasts s' = toasts s /\ checkThrows geojsonData
  | (OutOfFuel, _) => False
  end.
Proof.
  induction fuel as [|fuel IH]; intros attempts0 s Hle Hfuel; [lia|].
  cbn [doWhile]. run.
  destruct (isPointInBoundary _ _ geojsonData) as [valid|e] eqn:Hin;
    [|repeat split; unfold checkThrows; eauto].
  destruct (100 <? S attempts0)%nat eqn:Hlast.
  - apply Nat.ltb_lt in Hlast. run. repeat split; try assumption; lia.
  - apply Nat.ltb_ge in Hlast.
    destruct valid; run.
    + repeat split; try assumption; lia.
    + specialize (IH (S attempts0)
        {| isCollecting := isCollecting s; results := results s;
           currentStatus := currentStatus s; toasts := toasts s;
           warnings := warnings s; drawn := S (S (drawn s)) |}).
      cbn [results toasts drawn] in IH.
      destruct (doWhile browser geojsonData bounds fuel (S attempts0) _)
        as [[l| |] s'].
      * destruct IH as (? & ? & ? & ? & ?); try lia.
        repeat split; try assumption; lia.
      * apply IH; lia.
      * apply IH; lia.
Qed.

(** One loop iteration appends nothing or one point that passed the
    containment check. *)
Lemma iteration_extends i s :
  match iteration browser geojsonData bounds i s with
  | (Returns _, s') => extends geojsonData 1 s s'
  | (Throws _, s') => extends geojsonData 0 s s' /\ checkThrows geojsonData
  | (OutOfFuel, _) => False
  end.
Proof.
  unfold iteration. run. unfold bind at 1.
  match goal with |- context [doWhile _ _ _ 101 0 ?s0] =>
    pose proof (doWhile_returns 101 0 s0) as H;
    destruct (doWhile browser geojsonData bounds 101 0 s0) as [[l| |] s1]
  end; run.
  - destruct H as (Hr & Ht & Hin & _); try lia. run in Hr. run in Ht.
    destruct (validCoords l); run.
    + split; [assumption|]. eexists [_]. rewrite Hr.
      repeat split; [simpl; lia|]. constructor; [exact Hin|constructor].
    + split; [assumption|]. exists []. rewrite app_nil_r.
      repeat split; [assumption|simpl; lia|constructor].
  - destruct H as (Hr & Ht & Hthrow); try lia. run in Hr. run in Ht.
    split; [|assumption]. split; [assumption|]. exists [].
    rewrite app_nil_r. repeat split; [assumption|simpl; lia|constructor].
  - apply H; lia.
Qed.

Lemma extends_trans n m s1 s2 s3 :
  extends geojsonData n s1 s2 -> extends geojsonData m s2 s3 -> extends geojsonData (n + m) s1 s3.
Proof.
  intros (Ht1 & a1 & Hr1 & Hl1 & Hf1) (Ht2 & a2 & Hr2 & Hl2 & Hf2).
  split; [congruence|]. exists (a1 ++ a2).
  rewrite Hr2, Hr1, app_assoc, length_app. repeat split; [lia|].
  apply Forall_app. now split.
Qed.

Lemma extends_more n m s s' : n <= m -> extends geojsonData n s s' -> extends geojsonData m s s'.
Proof.
  intros Hnm (Ht & a & Hr & Hl & Hf). split; [assumption|].
  exists a. repeat split; [assumption|lia|assumption].
Qed.

(** The [for] loop over [n] slots appends at most [n] points. *)
Lemma for_extends n : forall i s,
  match for_ browser geojsonData bounds n i s with
  | (Returns _, s') => extends geojsonData n s s'
  | (Throws _, s') => extends geojsonData n s s' /\ checkThrows geojsonData
  | (OutOfFuel, _) => False
  end.
Proof.
  induction n as [|n IH]; intros i s; cbn [for_]; run.
  - split; [reflexivity|]. exists []. rewrite app_nil_r.
    repeat split; [simpl; lia|constructor].
  - pose proof (iteration_extends i s) as H1. unfold bind at 1.
    destruct (iteration browser geojsonData bounds i s) as [[[]| |] s1].
    + specialize (IH (S i) s1).
      destruct (for_ browser geojsonData bounds n (S i) s1) as [[[]| |] s2].
      * apply (extends_trans 1 n s s1 s2); assumption.
      * destruct IH as [IH Hthrow]. split; [|assumption].
        apply (extends_trans 1 n s s1 s2); assumption.
      * assumption.
    + destruct H1 as [H1 Hthrow]. split; [|assumption].
      apply (extends_more 0); [lia|assumption].
    + assumption.
Qed.

(** A slot all of whose 101 candidates are rejected: the loop stops at the
    [break] with [attempts = 101] and one warning, having consumed 202
    random values. *)
Lemma doWhile_exhausted fuel : forall attempts0 s,
  attempts0 <= 100 -> 101 <= fuel + attempts0 ->
  (forall k, k < 101 - attempts0 ->
     let c := candidate bounds (Math_random browser (drawn s + 2 * k))
                (Math_random browser (S (drawn s + 2 * k))) in
     isPointInBoundary (fst c) (snd c) geojsonData = Ok false) ->
  exists l,
    doWhile browser geojsonData bounds fuel attempts0 s
    = (Returns l,
       {| isCollecting := isCollecting s; results := results s;
          currentStatus := currentStatus s; toasts := toasts s;
          warnings := S (warnings s);
          drawn := drawn s + 2 * (101 - attempts0) |})
    /\ validCoords l = false /\ attempts l = 101.
Proof.
  induction fuel as [|fuel IH]; intros attempts0 s Hle Hfuel Hall; [lia|].
  cbn [doWhile]. run.
  pose proof (Hall 0 ltac:(lia)) as H0.
  rewrite Nat.mul_0_r, Nat.add_0_r in H0. cbn [candidate fst snd] in H0.
  rewrite H0.
  destruct (100 <? S attempts0)%nat eqn:Hlast; run.
  - apply Nat.ltb_lt in Hlast. assert (attempts0 = 100) by lia. subst.
    eexists.
    split; [apply f_equal2; [reflexivity|f_equal; lia] | split; reflexivity].
  - apply Nat.ltb_ge in Hlast.
    destruct (IH (S attempts0)
      {| isCollecting := isCollecting s; results := results s;
         currentStatus := currentStatus s; toasts := toasts s;
         warnings := warnings s; drawn := S (S (drawn s)) |})
      as (l & Hrun & Hv & Ha); try lia.
    + intros k Hk. cbn [drawn].
      replace (S (S (drawn s)) + 2 * k) with (drawn s + 2 * S k) by lia.
      apply Hall. lia.
    + exists l. rewrite Hrun. cbn [isCollecting results currentStatus toasts
        warnings drawn]. split; [|split; assumption].
      apply f_equal2; [reflexivity|]. f_equal. lia.
Qed.

(** Such a slot contributes no point and no error. *)
Lemma iteration_exhausted i s :
  (forall k, k < 101 ->
     let c := candidate bounds (Math_random browser (drawn s + 2 * k))
                (Math_random browser (S (drawn s + 2 * k))) in
     isPointInBoundary (fst c) (snd c) geojsonData = Ok false) ->
  exists s',
    iteration browser geojsonData bounds i s = (Returns tt, s')
    /\ results s' = results s /\ toasts s' = toasts s
    /\ warnings s' = S (warnings s) /\ drawn s' = drawn s + 202.
Proof.
  intros Hall. unfold iteration. run. unfold bind at 1.
  match goal with |- context [doWhile _ _ _ 101 0 ?s0] =>
    destruct (doWhile_exhausted 101 0 s0) as (l & Hrun & Hv & _);
      [lia|lia|exact Hall|]
  end.
  rewrite Hrun, Hv. run. eexists. split; [reflexivity|].
  run. repeat split.
Qed.

End Sampler.

(** The containment check does not throw on a traversable document, and a
    document that got bounds is traversable. *)
Lemma isPointInBoundary_for_traversable lat lng fs :
  Spec.traversable fs = true ->
  exists v, isPointInBoundary_for lat lng fs = Ok v.
Proof.
  induction fs as [|feature fs IH]; intros Hwf; simpl in *; [eauto|].
  apply andb_prop in Hwf. destruct Hwf as [Hf Hfs].
  destruct (geometry feature) as [g|]; [|discriminate].
  destruct (String.eqb (type g) "Polygon"); [|now apply IH].
  destruct (coordinates g) as [|ring0 rings]; [discriminate|].
  destruct (pointInPolygon_for _ _ _ _ _ _ _); [eauto|now apply IH].
Qed.

Lemma getBoundaryBounds_no_checkThrows geojson b :
  getBoundaryBounds geojson = Ok b -> ~ checkThrows geojson.
Proof.
  intros Hb (lat & lng & e & He).
  destruct geojson as [[[fs|]]|]; simpl in *; try discriminate.
  apply getBoundaryBounds_forEach_returns in Hb.
  destruct (isPointInBoundary_for_traversable lat lng fs Hb) as [v Hv].
  congruence.
Qed.

(** [simulateCollection] always runs to its end: it catches what the body
    throws, resets [isCollecting] and leaves exactly one toast. *)
Lemma simulateCollection_runs browser config :
  exists s',
    simulateCollection browser config initialState = (Returns tt, s')
    /\ isCollecting s' = false
    /\ outcomeOf browser config s'.
Proof.
  unfold simulateCollection, outcomeOf. run.
  destruct (boundingFile config) as [file|]; run.
  2: { eexists. split; [reflexivity|]. run. repeat split. }
  unfold try_catch_finally, bind at 1. unfold call at 1.
  destruct (parse browser (text file)) as [geojsonData|e].
  2: { run. eexists. split; [reflexivity|]. run. repeat split. }
  unfold bind at 1. unfold call at 1.
  destruct (getBoundaryBounds geojsonData) as [bounds|e] eqn:Hb.
  2: { run. eexists. split; [reflexivity|]. run. repeat split. }
  run. unfold bind at 1.
  match goal with |- context [for_ _ _ _ ?n 0 ?s0] =>
    pose proof (for_extends browser geojsonData bounds n 0 s0) as H;
    destruct (for_ browser geojsonData bounds n 0 s0) as [[[]| |] s1]
  end.
  - destruct H as (Ht & added & Hr & Hl & Hf). run in Ht. run in Hr.
    run. eexists. split; [reflexivity|]. run. simpl in Hr.
    rewrite Ht, Hr. repeat split; assumption.
  - destruct H as [_ Hthrow].
    now apply getBoundaryBounds_no_checkThrows in Hb.
  - contradiction.
Qed.

(** C1: every point of the result sequence passed the containment check of
    the boundary it was sampled over: a loop iteration appends a point only
    after [isPointInBoundary] returned true on its latitude and longitude,
    and so every point [simulateCollection] leaves in [results] is inside
    the parsed boundary. *)
Theorem results_inside_boundary (browser : Browser) (config : CollectorConfig)
        (p : StreetViewResult) :
  (forall geojsonData bounds i s,
     In p (results (snd (iteration browser geojsonData bounds i s))) ->
     In p (results s)
     \/ isPointInBoundary (latitude p) (longitude p) geojsonData = Ok true)
  /\ (In p (results (snd (simulateCollection browser config initialState))) ->
      exists file geojsonData,
        boundingFile config = Some file
        /\ parse browser (text file) = Ok geojsonData
        /\ isPointInBoundary (latitude p) (longitude p) geojsonData = Ok true).
Proof.
  split.
  - intros geojsonData bounds i s Hin.
    pose proof (iteration_extends browser geojsonData bounds i s) as H.
    destruct (iteration browser geojsonData bounds i s) as [[[]| |] s'];
      cbn [snd] in Hin; [|destruct H as [H _]|contradiction];
      destruct H as (_ & added & Hr & _ & Hf);
      rewrite Hr in Hin; apply in_app_or in Hin;
      (destruct Hin as [Hin|Hin]; [now left|right]);
      rewrite Forall_forall in Hf; exact (Hf p Hin).
  - destruct (simulateCollection_runs browser config) as (s' & Hrun & _ & Hout).
    rewrite Hrun. cbn [snd]. intros Hin. unfold outcomeOf in Hout.
    destruct (boundingFile config) as [file|].
    2: { destruct Hout as [Hr _]. rewrite Hr in Hin. destruct Hin. }
    destruct (parse browser (text file)) as [geojsonData|e] eqn:Hparse.
    2: { destruct Hout as [Hr _]. rewrite Hr in Hin. destruct Hin. }
    destruct (getBoundaryBounds geojsonData) as [bounds|e].
    2: { destruct Hout as [Hr _]. rewrite Hr in Hin. destruct Hin. }
    destruct Hout as (_ & _ & Hf). rewrite Forall_forall in Hf.
    exists file, geojsonData. repeat split; try assumption.
    exact (Hf p Hin).
Qed.

Lemma results_inside_boundary_witness :
  exists file geojsonData,
    boundingFile (configWith 3) = Some file
    /\ parse (browserWith squareDoc alternating) (text file) = Ok geojsonData
    /\ isPointInBoundary 2.5 5 geojsonData = Ok true.
Proof.
  apply (results_inside_boundary (browserWith squareDoc alternating)
           (configWith 3)
           {| panoid := "sv_4fzyo82mvyr"; latitude := 2.5; longitude := 5;
              timestamp := "2024-01-01T00:00:00.000Z" |}).
  vm_compute. left. reflexivity.
Defined.

(** The scenario of the specification: five points over the square. *)
Example square_five_points :
  map (fun p => (latitude p, longitude p))
    (results (snd (simulateCollection (browserWith squareDoc alternating)
                     (configWith 5) initialState)))
  = [(2.5, 5); (5, 2.5); (2.5, 5); (5, 2.5); (2.5, 5)]%float.
Proof. vm_compute. reflexivity. Qed.

(** C3, at an input where the code departs from it: over the triangle, with
    a random source whose first 100 candidates fall outside, the loop draws
    and tests a 101st candidate, warns that no valid coordinates were found
    after 100 attempts, and the 101st candidate is accepted. *)
Theorem doWhile_draws_101_candidates :
  doWhile (browserWith triangleDoc lateHit) triangleDoc
    {| minLat := 0; maxLat := 10; minLng := 0; maxLng := 10 |}
    101 0 initialState
  = (Returns {| lat := 1.25; lng := 1.25; validCoords := true;
                attempts := 101 |},
     {| isCollecting := false; results := []; currentStatus := "";
        toasts := []; warnings := 1; drawn := 202 |})
  /\ simulateCollection (browserWith triangleDoc lateHit) (configWith 1)
       initialState
     = (Returns tt,
        {| isCollecting := false;
           results := [{| panoid := "sv_4fzyo82mvyr"; latitude := 1.25;
                          longitude := 1.25;
                          timestamp := "2024-01-01T00:00:00.000Z" |}];
           currentStatus := "Collection completed successfully";
           toasts := [CollectionCompleted]; warnings := 1; drawn := 203 |}).
Proof. split; vm_compute; reflexivity. Qed.

(** The part of C3 that holds: whatever the boundary and the random source,
    the retry loop of a slot ends by itself, after at most 101 attempts, and
    more fuel changes nothing. *)
Lemma doWhile_terminates browser geojsonData bounds fuel s :
  101 <= fuel ->
  doWhile browser geojsonData bounds fuel 0 s
  = doWhile browser geojsonData bounds 101 0 s
  /\ fst (doWhile browser geojsonData bounds 101 0 s) <> OutOfFuel
  /\ forall l, fst (doWhile browser geojsonData bounds 101 0 s) = Returns l ->
       attempts l <= 101.
Proof.
  intros Hfuel. split; [|split].
  - assert (Hgen : forall n a s0, a <= 100 -> 101 <= n + a ->
      forall m, n <= m ->
        doWhile browser geojsonData bounds m a s0
        = doWhile browser geojsonData bounds n a s0).
    { induction n as [|n IH]; intros a s0 Ha Hn m Hm; [lia|].
      destruct m as [|m]; [lia|]. cbn [doWhile]. run.
      destruct (isPointInBoundary _ _ geojsonData) as [valid|e];
        [|reflexivity].
      destruct (100 <? S a)%nat eqn:Hlast; [reflexivity|].
      apply Nat.ltb_ge in Hlast.
      destruct valid; run; [reflexivity|]. apply IH; lia. }
    apply Hgen; lia.
  - pose proof (doWhile_returns browser geojsonData bounds 101 0 s) as H.
    destruct (doWhile browser geojsonData bounds 101 0 s) as [[l| |] s'];
      cbn [fst]; try discriminate. intros _. apply H; lia.
  - intros l Hl.
    pose proof (doWhile_returns browser geojsonData bounds 101 0 s) as H.
    destruct (doWhile browser geojsonData bounds 101 0 s) as [[l'| |] s'];
      cbn [fst] in Hl; try discriminate. injection Hl as ->.
    destruct H as (_ & _ & _ & ? & _); lia.
Qed.

(** The parts of the result-count property that hold on the code: a request
    of N points leaves between 0 and N points (none when N is not positive);
    no loop iteration appends more than one point; and a slot all of whose
    101 candidates are rejected ends normally, with the result sequence and
    the toasts as they were. *)
Theorem results_at_most_targetCount (browser : Browser)
        (config : CollectorConfig) (geojsonData : GeoJSON) (bounds : Bounds)
        (i : nat) (s : State) :
  (Z.of_nat
     (List.length
        (results (snd (simulateCollection browser config initialState))))
   <= Z.max 0 (targetCount config))%Z
  /\ (results (snd (iteration browser geojsonData bounds i s)) = results s
      \/ exists p,
           results (snd (iteration browser geojsonData bounds i s))
           = results s ++ [p])
  /\ ((forall k, k < 101 ->
         let c := candidate bounds (Math_random browser (drawn s + 2 * k))
                    (Math_random browser (S (drawn s + 2 * k))) in
         isPointInBoundary (fst c) (snd c) geojsonData = Ok false) ->
      fst (iteration browser geojsonData bounds i s) = Returns tt
      /\ results (snd (iteration browser geojsonData bounds i s)) = results s
      /\ toasts (snd (iteration browser geojsonData bounds i s)) = toasts s).
Proof.
  split; [|split].
  - destruct (simulateCollection_runs browser config) as (s' & Hrun & _ & Hout).
    rewrite Hrun. cbn [snd]. unfold outcomeOf in Hout.
    destruct (boundingFile config) as [file|].
    2: { destruct Hout as [-> _]. simpl. lia. }
    destruct (parse browser (text file)) as [g|e].
    2: { destruct Hout as [-> _]. simpl. lia. }
    destruct (getBoundaryBounds g) as [b|e].
    2: { destruct Hout as [-> _]. simpl. lia. }
    destruct Hout as (_ & Hlen & _). lia.
  - pose proof (iteration_extends browser geojsonData bounds i s) as H.
    destruct (iteration browser geojsonData bounds i s) as [[[]| |] s'];
      cbn [snd]; [|destruct H as [H _]|contradiction];
      destruct H as (_ & added & Hr & Hl & _); rewrite Hr;
      (destruct added as [|p [|q added]];
       [left; apply app_nil_r | right; now exists p | simpl in Hl; lia]).
  - intros Hall.
    destruct (iteration_exhausted browser geojsonData bounds i s Hall)
      as (s' & Hrun & Hr & Ht & _).
    rewrite Hrun. cbn [fst snd]. auto.
Qed.

Lemma results_at_most_targetCount_witness :
  fst (iteration (browserWith triangleDoc neverHit) triangleDoc
         {| minLat := 0; maxLat := 10; minLng := 0; maxLng := 10 |}
         0 initialState) = Returns tt
  /\ results (snd (iteration (browserWith triangleDoc neverHit) triangleDoc
         {| minLat := 0; maxLat := 10; minLng := 0; maxLng := 10 |}
         0 initialState)) = results initialState
  /\ toasts (snd (iteration (browserWith triangleDoc neverHit) triangleDoc
         {| minLat := 0; maxLat := 10; minLng := 0; maxLng := 10 |}
         0 initialState)) = toasts initialState.
Proof.
  apply (results_at_most_targetCount (browserWith triangleDoc neverHit)
           (configWith 1) triangleDoc
           {| minLat := 0; maxLat := 10; minLng := 0; maxLng := 10 |}
           0 initialState).
  intros k _. reflexivity.
Defined.

(** C7, at an input where the code departs from it: over the triangle, with
    a random source whose first 100 candidates fall outside, the slot has
    exhausted its budget of 100 attempts, and the warning is logged; yet the
    iteration draws a 101st candidate and appends it to the result
    sequence. *)
Theorem exhausted_budget_slot_appends_point :
  (forall k, k < 100 ->
     verdict triangleDoc
       (slotCandidate (browserWith triangleDoc lateHit)
          {| minLat := 0; maxLat := 10; minLng := 0; maxLng := 10 |}
          initialState k)
     = Ok false)
  /\ iteration (browserWith triangleDoc lateHit) triangleDoc
       {| minLat := 0; maxLat := 10; minLng := 0; maxLng := 10 |}
       0 initialState
     = (Returns tt,
        {| isCollecting := false;
           results := [{| panoid := "sv_4fzyo82mvyr"; latitude := 1.25;
                          longitude := 1.25;
                          timestamp := "2024-01-01T00:00:00.000Z" |}];
           currentStatus := "Initializing browser automation...";
           toasts := []; warnings := 1; drawn := 203 |}).
Proof.
  split.
  - intros k Hk. unfold verdict, slotCandidate.
    cbn [browserWith Math_random initialState drawn]. unfold lateHit.
    replace (0 + 2 * k <? 200)%nat with true
      by (symmetry; apply Nat.ltb_lt; lia).
    replace (S (0 + 2 * k) <? 200)%nat with true
      by (symmetry; apply Nat.ltb_lt; lia).
    reflexivity.
  - vm_compute. reflexivity.
Qed.

(** C4, as the code has it: a count N <= 0 keeps the start button disabled
    ([canStartCollection] is false), and [simulateCollection] itself checks
    no count: run with such a count on a boundary file that parses and has
    bounds, it ends with the "Collection completed" toast and an empty
    result sequence. *)
Theorem nonpositive_count_completes (browser : Browser)
        (config : CollectorConfig) :
  (targetCount config <= 0)%Z ->
  canStartCollection config = false
  /\ forall file geojsonData bounds,
       boundingFile config = Some file ->
       parse browser (text file) = Ok geojsonData ->
       getBoundaryBounds geojsonData = Ok bounds ->
       exists s',
         simulateCollection browser config initialState = (Returns tt, s')
         /\ results s' = []
         /\ toasts s' = [CollectionCompleted]
         /\ isCollecting s' = false.
Proof.
  intros Hn. split.
  - unfold canStartCollection. destruct (boundingFile config); [|reflexivity].
    replace (0 <? targetCount config)%Z with false
      by (symmetry; apply Z.ltb_ge; assumption).
    apply andb_false_r.
  - intros file geojsonData bounds Hfile Hparse Hbounds.
    destruct (simulateCollection_runs browser config)
      as (s' & Hrun & Hcoll & Hout).
    exists s'. unfold outcomeOf in Hout.
    rewrite Hfile, Hparse, Hbounds in Hout.
    destruct Hout as (Ht & Hlen & _).
    repeat split; try assumption.
    destruct (results s') as [|p l]; [reflexivity|].
    simpl in Hlen. lia.
Qed.

Lemma nonpositive_count_completes_witness :
  canStartCollection (configWith 0) = false
  /\ forall file geojsonData bounds,
       boundingFile (configWith 0) = Some file ->
       parse (browserWith squareDoc alternating) (text file)
       = Ok geojsonData ->
       getBoundaryBounds geojsonData = Ok bounds ->
       exists s',
         simulateCollection (browserWith squareDoc alternating) (configWith 0)
           initialState = (Returns tt, s')
         /\ results s' = []
         /\ toasts s' = [CollectionCompleted]
         /\ isCollecting s' = false.
Proof.
  apply (nonpositive_count_completes (browserWith squareDoc alternating)
           (configWith 0)).
  simpl. lia.
Defined.

(** C4 as stated fails: with N = 0 the whole operation is reported as a
    success with an empty result sequence, and no failure is reported. *)
Lemma zero_count_counterexample :
  (targetCount (configWith 0) <= 0)%Z
  /\ simulateCollection (browserWith squareDoc alternating) (configWith 0)
       initialState
     = (Returns tt,
        {| isCollecting := false; results := [];
           currentStatus := "Collection completed successfully";
           toasts := [CollectionCompleted]; warnings := 0; drawn := 0 |})
  /\ ~ In CollectionFailed
         (toasts (snd (simulateCollection (browserWith squareDoc alternating)
                         (configWith 0) initialState))).
Proof.
  split; [simpl; lia|]. split; [vm_compute; reflexivity|].
  vm_compute. intros [H|[]]. discriminate H.
Qed.

(** C9: on a parsed document that is null or has no [features] field,
    [isPointInBoundary] returns false for every point, without throwing; the
    sampler over such a document ends normally and accepts no point. *)
Theorem isPointInBoundary_lacksFeatures (lat lng : float) (geojson : GeoJSON) :
  Spec.lacksFeatures geojson = true ->
  isPointInBoundary lat lng geojson = Ok false
  /\ forall browser config file,
       boundingFile config = Some file ->
       parse browser (text file) = Ok geojson ->
       exists s',
         simulateCollection browser config initialState = (Returns tt, s')
         /\ results s' = []
         /\ toasts s' = [CollectionCompleted].
Proof.
  intros Hlacks.
  assert (Hfalse : forall lat' lng',
            isPointInBoundary lat' lng' geojson = Ok false).
  { intros lat' lng'. destruct geojson as [[[fs|]]|];
      try discriminate; reflexivity. }
  split; [apply Hfalse|].
  intros browser config file Hfile Hparse.
  destruct (simulateCollection_runs browser config) as (s' & Hrun & _ & Hout).
  exists s'. unfold outcomeOf in Hout. rewrite Hfile, Hparse in Hout.
  assert (Hb : getBoundaryBounds geojson = Ok initialBounds).
  { destruct geojson as [[[fs|]]|]; try discriminate; reflexivity. }
  rewrite Hb in Hout. destruct Hout as (Ht & _ & Hf).
  repeat split; try assumption.
  destruct (results s') as [|p l]; [reflexivity|].
  inversion Hf as [|? ? Hp _]. unfold accepted in Hp.
  rewrite Hfalse in Hp. discriminate.
Qed.

Lemma isPointInBoundary_lacksFeatures_witness :
  isPointInBoundary 5 5 None = Ok false
  /\ forall browser config file,
       boundingFile config = Some file ->
       parse browser (text file) = Ok None ->
       exists s',
         simulateCollection browser config initialState = (Returns tt, s')
         /\ results s' = []
         /\ toasts s' = [CollectionCompleted].
Proof.
  apply (isPointInBoundary_lacksFeatures 5 5 None). reflexivity.
Defined.

(** The same for a document without a [features] field. *)
Example isPointInBoundary_no_features_field :
  isPointInBoundary 5 5 (Some {| features := None |}) = Ok false.
Proof. reflexivity. Qed.

(** * Further properties *)

(** ** More of the order of numbers *)

Module FloatCompare.

Lemma SFleb_ltb_false u v : SFleb u v = true -> SFltb v u = false.
Proof.
  unfold SFleb, SFltb.
  destruct u as [su|su| |su mu eu], v as [sv|sv| |sv mv ev];
    FloatOrder.by_cases.
Qed.

Lemma SFltb_leb_trans u v w :
  SFltb u v = true -> SFleb v w = true -> SFltb u w = true.
Proof.
  unfold SFleb, SFltb.
  destruct u as [su|su| |su mu eu], v as [sv|sv| |sv mv ev],
           w as [sw|sw| |sw mw ew]; FloatOrder.by_cases.
Qed.

Lemma SFleb_false_ltb u v :
  FloatOrder.sfNaN u = false -> FloatOrder.sfNaN v = false ->
  SFleb u v = false -> SFltb v u = true.
Proof.
  unfold SFleb, SFltb.
  destruct u as [su|su| |su mu eu], v as [sv|sv| |sv mv ev];
    FloatOrder.by_cases.
Qed.

Lemma SFltb_not_nan u v :
  SFltb u v = true -> FloatOrder.sfNaN u = false /\ FloatOrder.sfNaN v = false.
Proof.
  unfold SFltb.
  destruct u as [su|su| |su mu eu], v as [sv|sv| |sv mv ev];
    simpl; try discriminate; auto.
Qed.

Lemma le_lt_false a b : Js.le a b = true -> Js.lt b a = false.
Proof. unfold Js.le, Js.lt. rewrite leb_spec, ltb_spec. apply SFleb_ltb_false. Qed.

Lemma lt_le_trans a b c :
  Js.lt a b = true -> Js.le b c = true -> Js.lt a c = true.
Proof.
  unfold Js.le, Js.lt. rewrite leb_spec, !ltb_spec. apply SFltb_leb_trans.
Qed.

Lemma le_false_lt a b :
  PrimFloat.is_nan a = false -> PrimFloat.is_nan b = false ->
  Js.le a b = false -> Js.lt b a = true.
Proof.
  unfold Js.le, Js.lt.
  rewrite !FloatOrder.is_nan_spec, leb_spec, ltb_spec.
  apply SFleb_false_ltb.
Qed.

Lemma lt_not_nan a b :
  Js.lt a b = true ->
  PrimFloat.is_nan a = false /\ PrimFloat.is_nan b = false.
Proof.
  unfold Js.lt. rewrite !FloatOrder.is_nan_spec, ltb_spec.
  apply SFltb_not_nan.
Qed.

End FloatCompare.

(** ** Rings that a point cannot be inside of *)

Lemma crosses_same_side x y vi vj :
  Js.gt (snd vi) y = Js.gt (snd vj) y -> crosses x y vi vj = false.
Proof.
  destruct vi as [xi yi], vj as [xj yj]. simpl. intros H.
  unfold crosses. rewrite H.
  now destruct (Js.gt yj y).
Qed.

Lemma parity_no_cross x y es :
  (forall e, In e es -> crosses x y (fst e) (snd e) = false) ->
  parity x y es = false.
Proof.
  unfold parity. induction es as [|e es IH]; intros H; [reflexivity|].
  simpl. unfold flip at 2. rewrite (H e (or_introl eq_refl)).
  apply IH. intros e' He'. apply H. now right.
Qed.

Lemma edgesFrom_In prev l e :
  In e (edgesFrom prev l) ->
  In (fst e) l /\ (snd e = prev \/ In (snd e) l).
Proof.
  revert prev. induction l as [|v l IH]; intros prev; simpl; [tauto|].
  intros [<-|H]; simpl; [auto|].
  destruct (IH v H) as [H1 [H2|H2]]; auto.
Qed.

Lemma last_In {A} (v : A) l d : In (last (v :: l) d) (v :: l).
Proof.
  revert v. induction l as [|w l IH]; intros v; [now left|].
  right. apply IH.
Qed.

(** When every vertex lies on the same side of the latitude of the point,
    no edge is crossed. *)
Lemma pointInPolygon_same_side x y polygon side :
  (forall v, In v polygon -> Js.gt (snd v) y = side) ->
  pointInPolygon (x, y) polygon = false.
Proof.
  intros Hside. rewrite pointInPolygon_parity.
  apply parity_no_cross. intros e He.
  apply edgesFrom_In in He. destruct He as [H1 H2].
  apply crosses_same_side.
  rewrite (Hside _ H1).
  destruct H2 as [H2|H2]; [|now rewrite (Hside _ H2)].
  rewrite H2. destruct polygon as [|v l]; [destruct H1|].
  symmetry. apply Hside. apply last_In.
Qed.

Lemma parity_cons x y e es :
  parity x y (e :: es) = xorb (parity x y [e]) (parity x y es).
Proof. exact (parity_app x y [e] es). Qed.

(** X1: a ring whose vertices all have one and the same latitude, and so any
    ring of fewer than two vertices, contains no point. *)
Theorem pointInPolygon_flat_ring (point : Position) (polygon : Ring)
        (lat0 : float) :
  (forall v, In v polygon -> snd v = lat0) ->
  pointInPolygon point polygon = false.
Proof.
  intros Hflat. destruct point as [x y].
  apply (pointInPolygon_same_side x y polygon (Js.gt lat0 y)).
  intros v Hv. now rewrite (Hflat v Hv).
Qed.

Lemma pointInPolygon_flat_ring_witness :
  pointInPolygon (5, 3)%float [(0, 3); (10, 3); (4, 3)]%float = false.
Proof.
  apply (pointInPolygon_flat_ring (5, 3)%float
           [(0, 3); (10, 3); (4, 3)]%float 3%float).
  intros v [<-|[<-|[<-|[]]]]; reflexivity.
Defined.

(** X2: closing a ring the GeoJSON way, by repeating its first vertex at the
    end, does not change the answer of the containment test. *)
Theorem pointInPolygon_closeRing (point : Position) (polygon : Ring) :
  pointInPolygon point (closeRing polygon) = pointInPolygon point polygon.
Proof.
  destruct point as [x y]. destruct polygon as [|v l]; [reflexivity|].
  unfold closeRing. rewrite !pointInPolygon_parity.
  rewrite last_app_cons. change (last [v] noVertex) with v.
  rewrite edgesFrom_app, parity_app. cbn [edgesFrom].
  rewrite (last_cons_any v l v noVertex).
  rewrite (parity_cons x y (v, v) (edgesFrom v l)).
  rewrite (parity_cons x y (v, last (v :: l) noVertex) (edgesFrom v l)).
  assert (H : parity x y [(v, v)] = false).
  { apply parity_no_cross. intros e [<-|[]]. now apply crosses_same_side. }
  rewrite H.
  destruct (parity x y (edgesFrom v l)),
    (parity x y [(v, last (v :: l) noVertex)]); reflexivity.
Qed.

(** ** The two traversals of the document *)

Lemma isPointInBoundary_for_rings lat lng fs :
  Spec.traversable fs = true ->
  isPointInBoundary_for lat lng fs
  = Ok (existsb (pointInPolygon (lng, lat)) (polygonRings fs)).
Proof.
  induction fs as [|feature fs IH]; intros Hwf; [reflexivity|].
  cbn [Spec.traversable forallb] in Hwf.
  apply andb_prop in Hwf. destruct Hwf as [Hf Hfs].
  cbn [isPointInBoundary_for polygonRings flat_map].
  destruct (geometry feature) as [g|]; [|discriminate].
  destruct (String.eqb (type g) "Polygon"); [|now apply IH].
  destruct (coordinates g) as [|ring0 rings]; [discriminate|].
  cbn [firstn app existsb].
  destruct (pointInPolygon (lng, lat) ring0); [reflexivity|now apply IH].
Qed.

Lemma polygonRings_vertices fs ring v :
  In ring (polygonRings fs) -> In v ring -> In v (Spec.vertices fs).
Proof.
  induction fs as [|feature fs IH]; intros Hr Hv; [destruct Hr|].
  cbn [polygonRings Spec.vertices flat_map] in *.
  apply in_or_app. apply in_app_or in Hr. destruct Hr as [Hr|Hr]; [left|auto].
  destruct (geometry feature) as [g|]; [|destruct Hr].
  destruct (String.eqb (type g) "Polygon"); [|destruct Hr].
  destruct (coordinates g) as [|ring0 rings]; [destruct Hr|].
  destruct Hr as [<-|[]]. exact Hv.
Qed.

Lemma getBoundaryBounds_forEach_throws fs : forall b,
  Spec.traversable fs = false ->
  getBoundaryBounds_forEach fs b = Throw TypeError.
Proof.
  induction fs as [|feature fs IH]; intros b Hwf; [discriminate|].
  cbn [Spec.traversable forallb] in Hwf.
  cbn [getBoundaryBounds_forEach].
  destruct (geometry feature) as [g|]; [|reflexivity].
  destruct (String.eqb (type g) "Polygon").
  - destruct (coordinates g) as [|ring0 rings]; [reflexivity|].
    apply IH. exact Hwf.
  - apply IH. exact Hwf.
Qed.

(** X3: over a document in which every feature has a geometry and every
    Polygon a first ring, a point is inside the boundary exactly when it is
    inside the first ring of at least one Polygon feature (union of the
    polygons). *)
Theorem isPointInBoundary_union (lat lng : float) (fs : list Feature) :
  Spec.traversable fs = true ->
  isPointInBoundary lat lng (collection fs)
  = Ok (existsb (pointInPolygon (lng, lat)) (polygonRings fs)).
Proof. intros Hwf. now apply isPointInBoundary_for_rings. Qed.

Lemma isPointInBoundary_union_witness :
  isPointInBoundary 5 5 (collection [polygonFeature [triangle];
                                     polygonFeature [square; hole]])
  = Ok (existsb (pointInPolygon (5, 5)%float) [triangle; square]).
Proof.
  apply (isPointInBoundary_union 5 5
           [polygonFeature [triangle]; polygonFeature [square; hole]]).
  reflexivity.
Defined.

(** X4: the containment check stops at the first polygon that contains the
    point: over two feature lists in sequence it answers for the first list
    unless that answer is false, so a malformed feature behind a containing
    polygon is never seen; the bounds traversal walks both lists and throws
    on a malformed feature wherever it stands. *)
Theorem traversals_of_appended_features (lat lng : float)
        (fs1 fs2 : list Feature) (b : Bounds) :
  isPointInBoundary_for lat lng (fs1 ++ fs2)
  = match isPointInBoundary_for lat lng fs1 with
    | Ok false => isPointInBoundary_for lat lng fs2
    | r => r
    end
  /\ getBoundaryBounds_forEach (fs1 ++ fs2) b
     = match getBoundaryBounds_forEach fs1 b with
       | Ok b1 => getBoundaryBounds_forEach fs2 b1
       | Throw e => Throw e
       end.
Proof.
  split.
  - induction fs1 as [|feature fs1 IH]; cbn [app isPointInBoundary_for].
    + now destruct (isPointInBoundary_for lat lng fs2) as [[|]|].
    + destruct (geometry feature) as [g|]; [|reflexivity].
      destruct (String.eqb (type g) "Polygon"); [|exact IH].
      destruct (coordinates g) as [|ring0 rings]; [reflexivity|].
      destruct (pointInPolygon (lng, lat) ring0); [reflexivity|exact IH].
  - revert b. induction fs1 as [|feature fs1 IH]; intros b;
      cbn [app getBoundaryBounds_forEach]; [reflexivity|].
    destruct (geometry feature) as [g|]; [|reflexivity].
    destruct (String.eqb (type g) "Polygon"); [|apply IH].
    destruct (coordinates g) as [|ring0 rings]; [reflexivity|apply IH].
Qed.

(** A point inside the square is reported inside although the feature
    after the square has no geometry; the bounds of the same document
    throw. *)
Example containing_polygon_hides_null_geometry :
  isPointInBoundary 5 5
    (collection [polygonFeature [square]; {| geometry := None |}])
  = Ok true
  /\ isPointInBoundary 15 15
       (collection [polygonFeature [square]; {| geometry := None |}])
     = Throw TypeError
  /\ getBoundaryBounds
       (collection [polygonFeature [square]; {| geometry := None |}])
     = Throw TypeError.
Proof. repeat split; reflexivity. Qed.

(** X5: over a document whose [features] is an array of features, each
    with a null geometry or a geometry whose coordinates are rings of number
    pairs, the bounds calculator throws a TypeError when some feature has no
    geometry or some Polygon no first ring, wherever it stands, and
    otherwise returns the fold of min and max over the vertices of the first
    rings, started from the infinite rectangle. *)
Theorem getBoundaryBounds_characterised (fs : list Feature) :
  getBoundaryBounds (collection fs)
  = if Spec.traversable fs
    then Ok (fold_left extend (Spec.vertices fs) initialBounds)
    else Throw TypeError.
Proof.
  cbn [collection getBoundaryBounds].
  destruct (Spec.traversable fs) eqn:Hwf.
  - now apply getBoundaryBounds_forEach_vertices.
  - now apply getBoundaryBounds_forEach_throws.
Qed.

(** X6: on a document for which the bounds calculator returned, the
    containment check throws at no point. *)
Theorem isPointInBoundary_total_after_bounds (geojson : GeoJSON) (b : Bounds)
        (lat lng : float) :
  getBoundaryBounds geojson = Ok b ->
  exists inside, isPointInBoundary lat lng geojson = Ok inside.
Proof.
  intros Hb.
  destruct (isPointInBoundary lat lng geojson) as [v|e] eqn:Hin; [eauto|].
  exfalso. apply (getBoundaryBounds_no_checkThrows geojson b Hb).
  now exists lat, lng, e.
Qed.

Lemma isPointInBoundary_total_after_bounds_witness :
  exists inside, isPointInBoundary 15 15 holedDoc = Ok inside.
Proof.
  apply (isPointInBoundary_total_after_bounds holedDoc
           {| minLat := 0; maxLat := 10; minLng := 0; maxLng := 10 |} 15 15).
  reflexivity.
Defined.

(** ** Latitudes outside the bounding rectangle *)

Lemma getBoundaryBounds_encloses_all geojson b :
  getBoundaryBounds geojson = Ok b ->
  Forall Spec.jsonPosition (Spec.boundaryVertices geojson) ->
  encloses b (rev (Spec.boundaryVertices geojson)).
Proof.
  intros Hb Hnum. apply getBoundaryBounds_vertices in Hb.
  pose proof (encloses_fold _ _ _ encloses_initial Hnum) as H.
  now rewrite <- Hb, app_nil_r in H.
Qed.

Lemma lt_nan_false a b : PrimFloat.is_nan a = true -> Js.lt a b = false.
Proof.
  intros Ha. destruct (Js.lt a b) eqn:Hlt; [|reflexivity].
  apply FloatCompare.lt_not_nan in Hlt. destruct Hlt. congruence.
Qed.

Lemma existsb_none {A} (f : A -> bool) l :
  (forall a, In a l -> f a = false) -> existsb f l = false.
Proof.
  intros H. destruct (existsb f l) eqn:E; [|reflexivity].
  apply existsb_exists in E. destruct E as (a & Ha & Hfa).
  rewrite (H a Ha) in Hfa. discriminate.
Qed.

Lemma isPointInBoundary_for_outside lat lng fs b :
  Spec.traversable fs = true ->
  (forall v, In v (Spec.vertices fs) -> Spec.inside b v) ->
  PrimFloat.is_nan lat = true \/ Js.lt lat (minLat b) = true
  \/ Js.le (maxLat b) lat = true ->
  isPointInBoundary_for lat lng fs = Ok false.
Proof.
  intros Hwf Hin Hout. rewrite isPointInBoundary_for_rings by assumption.
  f_equal. apply existsb_none. intros ring Hring.
  assert (Hv : forall v, In v ring -> Spec.inside b v).
  { intros v Hv. apply Hin. eapply polygonRings_vertices; eassumption. }
  destruct Hout as [Hnan|[Hlow|Hhigh]].
  - apply (pointInPolygon_same_side lng lat ring false).
    intros v _. now apply lt_nan_false.
  - apply (pointInPolygon_same_side lng lat ring true).
    intros v Hvr. destruct (Hv v Hvr) as (H1 & _).
    exact (FloatCompare.lt_le_trans _ _ _ Hlow H1).
  - apply (pointInPolygon_same_side lng lat ring false).
    intros v Hvr. destruct (Hv v Hvr) as (_ & H2 & _).
    apply FloatCompare.le_lt_false.
    exact (FloatOrder.le_trans _ _ _ H2 Hhigh).
Qed.

Lemma isPointInBoundary_outside geojson b lat lng :
  getBoundaryBounds geojson = Ok b ->
  Forall Spec.jsonPosition (Spec.boundaryVertices geojson) ->
  PrimFloat.is_nan lat = true \/ Js.lt lat (minLat b) = true
  \/ Js.le (maxLat b) lat = true ->
  isPointInBoundary lat lng geojson = Ok false.
Proof.
  intros Hb Hnum Hout.
  destruct (getBoundaryBounds_encloses_all geojson b Hb Hnum) as [_ Hin].
  destruct geojson as [[[fs|]]|]; try reflexivity.
  cbn [isPointInBoundary features].
  apply (isPointInBoundary_for_outside lat lng fs b).
  - simpl in Hb. eapply getBoundaryBounds_forEach_returns; eassumption.
  - intros v Hv. apply Hin. apply -> in_rev. exact Hv.
  - exact Hout.
Qed.

(** X7: over a boundary of JSON numbers, a point whose latitude is NaN, below
    [minLat] or not below [maxLat] of the computed rectangle is outside the
    boundary, whatever its longitude. *)
Theorem isPointInBoundary_outside_latitudes (geojson : GeoJSON) (b : Bounds)
        (lat lng : float) :
  getBoundaryBounds geojson = Ok b ->
  Forall Spec.jsonPosition (Spec.boundaryVertices geojson) ->
  PrimFloat.is_nan lat = true \/ Js.lt lat (minLat b) = true
  \/ Js.le (maxLat b) lat = true ->
  isPointInBoundary lat lng geojson = Ok false.
Proof. apply isPointInBoundary_outside. Qed.

Lemma isPointInBoundary_outside_latitudes_witness :
  isPointInBoundary 10 5 squareDoc = Ok false.
Proof.
  apply (isPointInBoundary_outside_latitudes squareDoc
           {| minLat := 0; maxLat := 10; minLng := 0; maxLng := 10 |} 10 5).
  - reflexivity.
  - repeat constructor.
  - right. right. reflexivity.
Defined.

(** X8: every point [simulateCollection] returns over a boundary of JSON
    numbers has its latitude in the half-open latitude range of the
    bounding rectangle: [minLat <= latitude < maxLat]. *)
Theorem results_within_latitudes (browser : Browser)
        (config : CollectorConfig) (file : File) (geojsonData : GeoJSON)
        (bounds : Bounds) (p : StreetViewResult) :
  boundingFile config = Some file ->
  parse browser (text file) = Ok geojsonData ->
  getBoundaryBounds geojsonData = Ok bounds ->
  Forall Spec.jsonPosition (Spec.boundaryVertices geojsonData) ->
  In p (results (snd (simulateCollection browser config initialState))) ->
  Js.le (minLat bounds) (latitude p) = true
  /\ Js.lt (latitude p) (maxLat bounds) = true.
Proof.
  intros Hfile Hparse Hb Hnum Hin.
  destruct (simulateCollection_runs browser config) as (s' & Hrun & _ & Hout).
  rewrite Hrun in Hin. cbn [snd] in Hin.
  unfold outcomeOf in Hout. rewrite Hfile, Hparse, Hb in Hout.
  destruct Hout as (_ & _ & Hacc). rewrite Forall_forall in Hacc.
  specialize (Hacc p Hin). unfold accepted in Hacc.
  destruct (getBoundaryBounds_encloses_all geojsonData bounds Hb Hnum)
    as [(Hn1 & Hn2 & _) _].
  assert (Hnan : PrimFloat.is_nan (latitude p) = false).
  { destruct (PrimFloat.is_nan (latitude p)) eqn:E; [|reflexivity].
    exfalso. assert (Hf := isPointInBoundary_outside geojsonData bounds
      (latitude p) (longitude p) Hb Hnum (or_introl E)). congruence. }
  split.
  - apply FloatOrder.lt_false_le; try assumption.
    destruct (Js.lt (latitude p) (minLat bounds)) eqn:E; [|reflexivity].
    exfalso. assert (Hf := isPointInBoundary_outside geojsonData bounds
      (latitude p) (longitude p) Hb Hnum (or_intror (or_introl E))).
    congruence.
  - apply FloatCompare.le_false_lt; try assumption.
    destruct (Js.le (maxLat bounds) (latitude p)) eqn:E; [|reflexivity].
    exfalso. assert (Hf := isPointInBoundary_outside geojsonData bounds
      (latitude p) (longitude p) Hb Hnum (or_intror (or_intror E))).
    congruence.
Qed.

Lemma results_within_latitudes_witness :
  Js.le 0 2.5 = true /\ Js.lt 2.5 10 = true.
Proof.
  apply (results_within_latitudes (browserWith squareDoc alternating)
           (configWith 3) {| name := "area.geojson"; text := "{...}" |}
           squareDoc
           {| minLat := 0; maxLat := 10; minLng := 0; maxLng := 10 |}
           {| panoid := "sv_4fzyo82mvyr"; latitude := 2.5; longitude := 5;
              timestamp := "2024-01-01T00:00:00.000Z" |}).
  - reflexivity.
  - reflexivity.
  - reflexivity.
  - repeat constructor.
  - vm_compute. left. reflexivity.
Defined.

(** ** Runs of the sampler, slot by slot *)

Section Slots.

Variable browser : Browser.
Variable geojsonData : GeoJSON.
Variable bounds : Bounds.

(** What a slot costs: the random values drawn, the warning logged when the
    loop is left by its [break], and the point that is missing only when
    the warning was logged. *)
Lemma doWhile_account fuel : forall attempts0 s,
  attempts0 <= 100 -> 101 <= fuel + attempts0 ->
  match doWhile browser geojsonData bounds fuel attempts0 s with
  | (Returns l, s') =>
      results s' = results s
      /\ attempts0 < attempts l <= 101
      /\ drawn s' = drawn s + 2 * (attempts l - attempts0)
      /\ warnings s' = warnings s + (if (attempts l =? 101)%nat then 1 else 0)
      /\ (validCoords l = false -> attempts l = 101)
  | (Throws _, _) => checkThrows geojsonData
  | (OutOfFuel, _) => False
  end.
Proof.
  induction fuel as [|fuel IH]; intros attempts0 s Hle Hfuel; [lia|].
  cbn [doWhile]. run.
  destruct (isPointInBoundary _ _ geojsonData) as [valid|e] eqn:Hin;
    [|unfold checkThrows; eauto].
  destruct (100 <? S attempts0)%nat eqn:Hlast.
  - apply Nat.ltb_lt in Hlast. assert (attempts0 = 100) by lia. subst.
    run. change (101 =? 101)%nat with true. repeat split; try lia.
  - apply Nat.ltb_ge in Hlast.
    destruct valid; run.
    + replace (S attempts0 =? 101)%nat with false
        by (symmetry; apply Nat.eqb_neq; lia).
      repeat split; try lia; try discriminate.
    + specialize (IH (S attempts0)
        {| isCollecting := isCollecting s; results := results s;
           currentStatus := currentStatus s; toasts := toasts s;
           warnings := warnings s; drawn := S (S (drawn s)) |}).
      cbn [results warnings drawn] in IH.
      destruct (doWhile browser geojsonData bounds fuel (S attempts0) _)
        as [[l| |] s'].
      * destruct IH as (? & ? & ? & ? & ?); try lia.
        repeat split; try assumption; lia.
      * apply IH; lia.
      * apply IH; lia.
Qed.

Lemma iteration_cost i s :
  match iteration browser geojsonData bounds i s with
  | (Returns _, s') => slotCost s s'
  | (Throws _, _) => checkThrows geojsonData
  | (OutOfFuel, _) => False
  end.
Proof.
  unfold iteration. run. unfold bind at 1.
  match goal with |- context [doWhile _ _ _ 101 0 ?s0] =>
    pose proof (doWhile_account 101 0 s0) as H;
    destruct (doWhile browser geojsonData bounds 101 0 s0) as [[l| |] s1]
  end; run.
  - destruct H as (Hr & Ha & Hd & Hw & Hv); try lia.
    run in Hr. run in Hd. run in Hw. unfold slotCost.
    destruct (validCoords l); run.
    + rewrite Hr, Hd, Hw, length_app. simpl.
      destruct (attempts l =? 101)%nat; lia.
    + rewrite Hr, Hd, Hw. rewrite (Hv eq_refl). simpl. lia.
  - apply H; lia.
  - apply H; lia.
Qed.

Lemma for_cost n : forall i s,
  match for_ browser geojsonData bounds n i s with
  | (Returns _, s') =>
      drawn s + 3 * n <= drawn s' <= drawn s + 203 * n
      /\ warnings s <= warnings s' <= warnings s + n
      /\ List.length (results s) + warnings s + n
         <= List.length (results s') + warnings s'
  | (Throws _, _) => checkThrows geojsonData
  | (OutOfFuel, _) => False
  end.
Proof.
  induction n as [|n IH]; intros i s; cbn [for_].
  - run. lia.
  - unfold bind at 1. pose proof (iteration_cost i s) as H1.
    destruct (iteration browser geojsonData bounds i s) as [[[]| |] s1];
      [|assumption|assumption].
    specialize (IH (S i) s1).
    destruct (for_ browser geojsonData bounds n (S i) s1) as [[[]| |] s2];
      [|assumption|assumption].
    unfold slotCost in H1. lia.
Qed.

(** The slot whose first [k] candidates are rejected and whose next one is
    accepted. *)
Lemma doWhile_first_hit k : forall fuel attempts0 s,
  attempts0 + k <= 100 -> 101 <= fuel + attempts0 ->
  (forall j, j < k -> verdict geojsonData (slotCandidate browser bounds s j) = Ok false) ->
  verdict geojsonData (slotCandidate browser bounds s k) = Ok true ->
  exists s',
    doWhile browser geojsonData bounds fuel attempts0 s
    = (Returns {| lat := fst (slotCandidate browser bounds s k);
                  lng := snd (slotCandidate browser bounds s k);
                  validCoords := true; attempts := attempts0 + k + 1 |}, s')
    /\ results s' = results s /\ toasts s' = toasts s
    /\ drawn s' = drawn s + 2 * k + 2
    /\ warnings s' = warnings s + (if (attempts0 + k =? 100)%nat then 1 else 0).
Proof.
  induction k as [|k IH]; intros fuel attempts0 s Hle Hfuel Hrej Hacc;
    (destruct fuel as [|fuel]; [lia|]); cbn [doWhile]; run.
  - unfold verdict, slotCandidate in Hacc.
    rewrite Nat.mul_0_r, Nat.add_0_r in Hacc. cbn [candidate fst snd] in Hacc.
    rewrite Hacc. unfold slotCandidate.
    rewrite !Nat.mul_0_r, !Nat.add_0_r. cbn [candidate fst snd].
    destruct (100 <? S attempts0)%nat eqn:Hlast; run.
    + apply Nat.ltb_lt in Hlast. assert (attempts0 = 100) by lia. subst.
      eexists. split; [reflexivity|]. run. simpl. repeat split; lia.
    + apply Nat.ltb_ge in Hlast.
      replace (attempts0 =? 100)%nat with false
        by (symmetry; apply Nat.eqb_neq; lia).
      replace (S attempts0) with (attempts0 + 1) by lia.
      eexists. split; [reflexivity|]. run. repeat split; lia.
  - pose proof (Hrej 0 ltac:(lia)) as H0.
    unfold verdict, slotCandidate in H0.
    rewrite Nat.mul_0_r, Nat.add_0_r in H0. cbn [candidate fst snd] in H0.
    rewrite H0.
    replace (100 <? S attempts0)%nat with false
      by (symmetry; apply Nat.ltb_ge; lia).
    run.
    destruct (IH fuel (S attempts0)
      {| isCollecting := isCollecting s; results := results s;
         currentStatus := currentStatus s; toasts := toasts s;
         warnings := warnings s; drawn := S (S (drawn s)) |})
      as (s' & Hrun & Hr & Ht & Hd & Hw); try lia.
    + intros j Hj. specialize (Hrej (S j) ltac:(lia)).
      unfold verdict, slotCandidate in *. cbn [drawn].
      replace (S (S (drawn s)) + 2 * j) with (drawn s + 2 * S j) by lia.
      exact Hrej.
    + unfold verdict, slotCandidate in *. cbn [drawn].
      replace (S (S (drawn s)) + 2 * k) with (drawn s + 2 * S k) by lia.
      exact Hacc.
    + exists s'. rewrite Hrun. run in Hr. run in Ht. run in Hd. run in Hw.
      unfold slotCandidate. cbn [drawn].
      replace (S (S (drawn s)) + 2 * k) with (drawn s + 2 * S k) by lia.
      replace (S attempts0 + k + 1) with (attempts0 + S k + 1) by lia.
      split; [reflexivity|].
      replace (attempts0 + S k) with (S attempts0 + k) by lia.
      repeat split; try assumption; lia.
Qed.

End Slots.

Section Runs.

Variable browser : Browser.
Variable geojsonData : GeoJSON.
Variable bounds : Bounds.

Lemma iteration_hit k i s :
  k <= 100 ->
  (forall j, j < k ->
     verdict geojsonData (slotCandidate browser bounds s j) = Ok false) ->
  verdict geojsonData (slotCandidate browser bounds s k) = Ok true ->
  exists s',
    iteration browser geojsonData bounds i s = (Returns tt, s')
    /\ results s'
       = results s
         ++ [{| panoid :=
                  "sv_" ++ substring 2 12
                    (toString36 browser
                       (Math_random browser (drawn s + 2 * k + 2)));
                latitude := fst (slotCandidate browser bounds s k);
                longitude := snd (slotCandidate browser bounds s k);
                timestamp := Date_toISOString browser i |}]
    /\ toasts s' = toasts s
    /\ drawn s' = drawn s + 2 * k + 3
    /\ warnings s' = warnings s + (if (k =? 100)%nat then 1 else 0).
Proof.
  intros Hk Hrej Hacc. unfold iteration. run. unfold bind at 1.
  match goal with |- context [doWhile _ _ _ 101 0 ?s0] =>
    destruct (doWhile_first_hit browser geojsonData bounds k 101 0 s0)
      as (s1 & Hrun & Hr & Ht & Hd & Hw); [lia|lia|exact Hrej|exact Hacc|]
  end.
  rewrite Hrun. run in Hr. run in Ht. run in Hd. run in Hw.
  cbn [validCoords]. run. eexists. split; [reflexivity|]. run.
  rewrite Hr, Ht, Hd, Hw. unfold slotCandidate. cbn [drawn].
  repeat split; lia.
Qed.

Lemma for_all_accepted n : forall i s,
  allCandidates browser geojsonData bounds true ->
  exists s',
    for_ browser geojsonData bounds n i s = (Returns tt, s')
    /\ List.length (results s') = List.length (results s) + n
    /\ toasts s' = toasts s
    /\ drawn s' = drawn s + 3 * n
    /\ warnings s' = warnings s.
Proof.
  induction n as [|n IH]; intros i s Hall; cbn [for_].
  - run. eexists. split; [reflexivity|]. repeat split; lia.
  - unfold bind at 1.
    destruct (iteration_hit 0 i s) as (s1 & Hrun & Hr & Ht & Hd & Hw);
      [lia|intros j Hj; lia|apply Hall|].
    rewrite Hrun.
    destruct (IH (S i) s1 Hall) as (s2 & Hrun2 & Hr2 & Ht2 & Hd2 & Hw2).
    exists s2. rewrite Hrun2. split; [reflexivity|].
    rewrite Hr2, Ht2, Hd2, Hw2, Hr, Ht, Hd, Hw, length_app. simpl.
    repeat split; lia.
Qed.

Lemma for_all_rejected n : forall i s,
  allCandidates browser geojsonData bounds false ->
  exists s',
    for_ browser geojsonData bounds n i s = (Returns tt, s')
    /\ results s' = results s
    /\ toasts s' = toasts s
    /\ drawn s' = drawn s + 202 * n
    /\ warnings s' = warnings s + n.
Proof.
  induction n as [|n IH]; intros i s Hall; cbn [for_].
  - run. eexists. split; [reflexivity|]. repeat split; lia.
  - unfold bind at 1.
    destruct (iteration_exhausted browser geojsonData bounds i s)
      as (s1 & Hrun & Hr & Ht & Hw & Hd).
    { intros k _. apply Hall. }
    rewrite Hrun.
    destruct (IH (S i) s1 Hall) as (s2 & Hrun2 & Hr2 & Ht2 & Hd2 & Hw2).
    exists s2. rewrite Hrun2. split; [reflexivity|].
    rewrite Hr2, Ht2, Hd2, Hw2, Hr, Ht, Hd, Hw.
    repeat split; lia.
Qed.

End Runs.

(** The whole run, case by case. *)
Lemma simulateCollection_cases browser config :
  simulateCollection browser config initialState
  = (Returns tt,
     match boundingFile config with
     | None => stopped NoBoundaryFile
     | Some file =>
         match parse browser (text file) with
         | Throw _ => stopped CollectionFailed
         | Ok geojsonData =>
             match getBoundaryBounds geojsonData with
             | Throw _ => stopped CollectionFailed
             | Ok bounds =>
                 completed
                   (snd (for_ browser geojsonData bounds
                           (Z.to_nat (targetCount config)) 0 samplingStart))
             end
         end
     end).
Proof.
  unfold simulateCollection. run.
  destruct (boundingFile config) as [file|]; run; [|reflexivity].
  unfold try_catch_finally, bind at 1. unfold call at 1.
  destruct (parse browser (text file)) as [geojsonData|e]; [|reflexivity].
  unfold bind at 1. unfold call at 1.
  destruct (getBoundaryBounds geojsonData) as [bounds|e] eqn:Hb;
    [|reflexivity].
  run. unfold bind at 1.
  match goal with |- context [for_ _ _ _ _ 0 ?s0] =>
    change s0 with samplingStart
  end.
  pose proof (for_cost browser geojsonData bounds
                (Z.to_nat (targetCount config)) 0 samplingStart) as H.
  destruct (for_ browser geojsonData bounds _ 0 samplingStart)
    as [[[]| |] s1].
  - reflexivity.
  - now apply getBoundaryBounds_no_checkThrows in Hb.
  - contradiction.
Qed.

Lemma for_toasts browser geojsonData bounds n i s :
  toasts (snd (for_ browser geojsonData bounds n i s)) = toasts s.
Proof.
  pose proof (for_extends browser geojsonData bounds n i s) as H.
  destruct (for_ browser geojsonData bounds n i s) as [[[]| |] s'];
    cbn [snd]; [|destruct H as [H _]|contradiction]; apply H.
Qed.

(** X9: whatever the configuration, the file and the random source,
    [simulateCollection] returns normally (it lets no exception escape),
    leaves [isCollecting] false and has shown exactly one toast. *)
Theorem simulateCollection_always_finishes (browser : Browser)
        (config : CollectorConfig) :
  exists s' t,
    simulateCollection browser config initialState = (Returns tt, s')
    /\ isCollecting s' = false
    /\ toasts s' = [t].
Proof.
  rewrite simulateCollection_cases.
  destruct (boundingFile config) as [file|]; [|repeat eexists].
  destruct (parse browser (text file)) as [g|e]; [|repeat eexists].
  destruct (getBoundaryBounds g) as [b|e]; [|repeat eexists].
  eexists. exists CollectionCompleted. split; [reflexivity|].
  split; [reflexivity|]. cbn [completed toasts].
  now rewrite for_toasts.
Qed.

(** X10: which toast a run ends with.  Without a file it is "No boundary
    file"; with a file that does not parse, or whose document has a feature
    without geometry or a Polygon without first ring, it is "Collection
    failed", and in both cases no random value was drawn and no result is
    left; with a file that parses to null, to a document without [features],
    or to a features array in which every feature has a geometry and every
    Polygon a first ring of number pairs, it is "Collection completed". *)
Theorem simulateCollection_toast (browser : Browser)
        (config : CollectorConfig) :
  (boundingFile config = None ->
   snd (simulateCollection browser config initialState)
   = stopped NoBoundaryFile)
  /\ (forall file,
        boundingFile config = Some file ->
        JSON_parse browser (text file) = None
        \/ (exists geojsonData,
              JSON_parse browser (text file) = Some geojsonData
              /\ Spec.traversableDoc geojsonData = false) ->
        snd (simulateCollection browser config initialState)
        = stopped CollectionFailed)
  /\ (forall file geojsonData,
        boundingFile config = Some file ->
        JSON_parse browser (text file) = Some geojsonData ->
        Spec.traversableDoc geojsonData = true ->
        toasts (snd (simulateCollection browser config initialState))
        = [CollectionCompleted]).
Proof.
  rewrite simulateCollection_cases. cbn [snd]. split; [|split].
  - now intros ->.
  - intros file -> [Hp|(g & Hp & Hwf)]; unfold parse; rewrite Hp;
      [reflexivity|].
    assert (Hb : getBoundaryBounds g = Throw TypeError).
    { destruct g as [[[fs|]]|]; try discriminate.
      now apply getBoundaryBounds_forEach_throws. }
    now rewrite Hb.
  - intros file g -> Hp Hwf. unfold parse. rewrite Hp.
    assert (Hb : exists b, getBoundaryBounds g = Ok b).
    { destruct g as [[[fs|]]|]; simpl; eauto.
      rewrite getBoundaryBounds_forEach_vertices by assumption. eauto. }
    destruct Hb as [b ->]. cbn [completed toasts].
    now rewrite for_toasts.
Qed.

Lemma simulateCollection_toast_witness :
  snd (simulateCollection
         (browserWith (collection [{| geometry := None |}]) alternating)
         (configWith 5) initialState)
  = stopped CollectionFailed.
Proof.
  apply (proj1 (proj2 (simulateCollection_toast
           (browserWith (collection [{| geometry := None |}]) alternating)
           (configWith 5)))
           {| name := "area.geojson"; text := "{...}" |}).
  - reflexivity.
  - right. exists (collection [{| geometry := None |}]).
    split; reflexivity.
Defined.

(** X11: a run for N points draws at most 203 N random values (101
    candidates of two values and one identifier per slot) and logs at most
    N warnings. *)
Theorem simulateCollection_cost (browser : Browser)
        (config : CollectorConfig) :
  drawn (snd (simulateCollection browser config initialState))
  <= 203 * Z.to_nat (targetCount config)
  /\ warnings (snd (simulateCollection browser config initialState))
     <= Z.to_nat (targetCount config).
Proof.
  rewrite simulateCollection_cases. cbn [snd].
  destruct (boundingFile config) as [file|]; [|simpl; lia].
  destruct (parse browser (text file)) as [g|e]; [|simpl; lia].
  destruct (getBoundaryBounds g) as [b|e] eqn:Hb; [|simpl; lia].
  cbn [completed drawn warnings].
  pose proof (for_cost browser g b (Z.to_nat (targetCount config)) 0
                samplingStart) as H.
  destruct (for_ browser g b _ 0 samplingStart) as [[[]| |] s1]; cbn [snd].
  - cbn [samplingStart drawn warnings results] in H. lia.
  - now apply getBoundaryBounds_no_checkThrows in Hb.
  - contradiction.
Qed.

(** X12: in a run that ends with "Collection completed", every one of the
    N slots has left a point or a console warning, and has drawn at least
    three random values. *)
Theorem completed_run_accounts_for_slots (browser : Browser)
        (config : CollectorConfig) :
  toasts (snd (simulateCollection browser config initialState))
  = [CollectionCompleted] ->
  Z.to_nat (targetCount config)
  <= List.length (results (snd (simulateCollection browser config
                                  initialState)))
     + warnings (snd (simulateCollection browser config initialState))
  /\ 3 * Z.to_nat (targetCount config)
     <= drawn (snd (simulateCollection browser config initialState)).
Proof.
  rewrite simulateCollection_cases. cbn [snd].
  destruct (boundingFile config) as [file|]; [|discriminate].
  destruct (parse browser (text file)) as [g|e]; [|discriminate].
  destruct (getBoundaryBounds g) as [b|e] eqn:Hb; [|discriminate].
  intros _. cbn [completed drawn warnings results].
  pose proof (for_cost browser g b (Z.to_nat (targetCount config)) 0
                samplingStart) as H.
  destruct (for_ browser g b _ 0 samplingStart) as [[[]| |] s1]; cbn [snd].
  - cbn [samplingStart drawn warnings results List.length] in H. lia.
  - now apply getBoundaryBounds_no_checkThrows in Hb.
  - contradiction.
Qed.

Lemma completed_run_accounts_for_slots_witness :
  Z.to_nat (targetCount (configWith 2))
  <= List.length
       (results (snd (simulateCollection (browserWith triangleDoc neverHit)
                        (configWith 2) initialState)))
     + warnings (snd (simulateCollection (browserWith triangleDoc neverHit)
                        (configWith 2) initialState))
  /\ 3 * Z.to_nat (targetCount (configWith 2))
     <= drawn (snd (simulateCollection (browserWith triangleDoc neverHit)
                      (configWith 2) initialState)).
Proof.
  apply (completed_run_accounts_for_slots (browserWith triangleDoc neverHit)
           (configWith 2)).
  vm_compute. reflexivity.
Defined.

(** X13: in a slot whose first [k] candidates are rejected and whose next
    candidate is accepted ([k <= 100]), exactly that candidate is appended,
    after [2 k + 3] random values; the warning is logged only when it was
    the 101st candidate. *)
Theorem iteration_first_hit (browser : Browser) (geojsonData : GeoJSON)
        (bounds : Bounds) (k i : nat) (s : State) :
  k <= 100 ->
  (forall j, j < k ->
     verdict geojsonData (slotCandidate browser bounds s j) = Ok false) ->
  verdict geojsonData (slotCandidate browser bounds s k) = Ok true ->
  exists s',
    iteration browser geojsonData bounds i s = (Returns tt, s')
    /\ results s'
       = results s
         ++ [{| panoid :=
                  "sv_" ++ substring 2 12
                    (toString36 browser
                       (Math_random browser (drawn s + 2 * k + 2)));
                latitude := fst (slotCandidate browser bounds s k);
                longitude := snd (slotCandidate browser bounds s k);
                timestamp := Date_toISOString browser i |}]
    /\ toasts s' = toasts s
    /\ drawn s' = drawn s + 2 * k + 3
    /\ warnings s' = warnings s + (if (k =? 100)%nat then 1 else 0).
Proof. apply iteration_hit. Qed.

Lemma iteration_first_hit_witness :
  exists s',
    iteration (browserWith triangleDoc secondHit) triangleDoc
      {| minLat := 0; maxLat := 10; minLng := 0; maxLng := 10 |}
      0 initialState = (Returns tt, s')
    /\ results s'
       = [{| panoid := "sv_4fzyo82mvyr"; latitude := 1.25;
             longitude := 1.25; timestamp := "2024-01-01T00:00:00.000Z" |}]
    /\ toasts s' = []
    /\ drawn s' = 5
    /\ warnings s' = 0.
Proof.
  apply (iteration_first_hit (browserWith triangleDoc secondHit) triangleDoc
           {| minLat := 0; maxLat := 10; minLng := 0; maxLng := 10 |}
           1 0 initialState).
  - lia.
  - intros j Hj. assert (j = 0) by lia. subst. reflexivity.
  - reflexivity.
Defined.

(** X14: over a boundary that contains every candidate the random source
    can produce, a run for N points returns exactly N points, draws exactly
    3 N random values and logs no warning. *)
Theorem all_accepted_run (browser : Browser) (config : CollectorConfig)
        (file : File) (geojsonData : GeoJSON) (bounds : Bounds) :
  boundingFile config = Some file ->
  parse browser (text file) = Ok geojsonData ->
  getBoundaryBounds geojsonData = Ok bounds ->
  allCandidates browser geojsonData bounds true ->
  exists s',
    simulateCollection browser config initialState = (Returns tt, s')
    /\ List.length (results s') = Z.to_nat (targetCount config)
    /\ drawn s' = 3 * Z.to_nat (targetCount config)
    /\ warnings s' = 0
    /\ toasts s' = [CollectionCompleted].
Proof.
  intros Hfile Hparse Hb Hall.
  rewrite simulateCollection_cases, Hfile, Hparse, Hb.
  destruct (for_all_accepted browser geojsonData bounds
              (Z.to_nat (targetCount config)) 0 samplingStart Hall)
    as (s1 & Hrun & Hr & Ht & Hd & Hw).
  rewrite Hrun. eexists. split; [reflexivity|].
  cbn [snd completed results drawn warnings toasts].
  rewrite Hr, Hd, Hw, Ht. repeat split.
Qed.

Lemma all_accepted_run_witness :
  exists s',
    simulateCollection (browserWith squareDoc alternating) (configWith 5)
      initialState = (Returns tt, s')
    /\ List.length (results s') = Z.to_nat (targetCount (configWith 5))
    /\ drawn s' = 3 * Z.to_nat (targetCount (configWith 5))
    /\ warnings s' = 0
    /\ toasts s' = [CollectionCompleted].
Proof.
  apply (all_accepted_run (browserWith squareDoc alternating) (configWith 5)
           {| name := "area.geojson"; text := "{...}" |} squareDoc
           {| minLat := 0; maxLat := 10; minLng := 0; maxLng := 10 |}).
  - reflexivity.
  - reflexivity.
  - reflexivity.
  - intros n m. unfold verdict. cbn [browserWith Math_random].
    unfold alternating. destruct (Nat.even n), (Nat.even m); reflexivity.
Defined.

(** X15: over a boundary that contains none of the candidates the random
    source can produce (a boundary without polygons, for one), a run for N
    points still ends with "Collection completed": it returns no point,
    after 202 N random values and N warnings. *)
Theorem all_rejected_run (browser : Browser) (config : CollectorConfig)
        (file : File) (geojsonData : GeoJSON) (bounds : Bounds) :
  boundingFile config = Some file ->
  parse browser (text file) = Ok geojsonData ->
  getBoundaryBounds geojsonData = Ok bounds ->
  allCandidates browser geojsonData bounds false ->
  exists s',
    simulateCollection browser config initialState = (Returns tt, s')
    /\ results s' = []
    /\ drawn s' = 202 * Z.to_nat (targetCount config)
    /\ warnings s' = Z.to_nat (targetCount config)
    /\ toasts s' = [CollectionCompleted].
Proof.
  intros Hfile Hparse Hb Hall.
  rewrite simulateCollection_cases, Hfile, Hparse, Hb.
  destruct (for_all_rejected browser geojsonData bounds
              (Z.to_nat (targetCount config)) 0 samplingStart Hall)
    as (s1 & Hrun & Hr & Ht & Hd & Hw).
  rewrite Hrun. eexists. split; [reflexivity|].
  cbn [snd completed results drawn warnings toasts].
  rewrite Hr, Hd, Hw, Ht. repeat split.
Qed.

Lemma all_rejected_run_witness :
  exists s',
    simulateCollection (browserWith emptyDoc alternating) (configWith 5)
      initialState = (Returns tt, s')
    /\ results s' = []
    /\ drawn s' = 202 * Z.to_nat (targetCount (configWith 5))
    /\ warnings s' = Z.to_nat (targetCount (configWith 5))
    /\ toasts s' = [CollectionCompleted].
Proof.
  apply (all_rejected_run (browserWith emptyDoc alternating) (configWith 5)
           {| name := "area.geojson"; text := "{...}" |} emptyDoc
           initialBounds).
  - reflexivity.
  - reflexivity.
  - reflexivity.
  - intros n m. reflexivity.
Defined.

Lemma simulateCollection_toast_cases browser config :
  (boundingFile config = None ->
   toasts (snd (simulateCollection browser config initialState))
   = [NoBoundaryFile])
  /\ (forall file, boundingFile config = Some file ->
      toasts (snd (simulateCollection browser config initialState))
      = [CollectionFailed]
      \/ toasts (snd (simulateCollection browser config initialState))
         = [CollectionCompleted]).
Proof.
  rewrite simulateCollection_cases. cbn [snd]. split.
  - now intros ->.
  - intros file ->.
    destruct (parse browser (text file)) as [g|e]; [|now left].
    destruct (getBoundaryBounds g) as [b|e]; [|now left].
    right. cbn [completed toasts]. now rewrite for_toasts.
Qed.

(** X16: the start button is enabled exactly when a boundary file is stored,
    the starting URL is not empty and the count is positive; a run started
    under that condition never ends with the "No boundary file" toast. *)
Theorem canStartCollection_gate (browser : Browser)
        (config : CollectorConfig) :
  (canStartCollection config = true
   <-> (exists file, boundingFile config = Some file)
       /\ startingUrl config <> ""
       /\ (0 < targetCount config)%Z)
  /\ (canStartCollection config = true ->
      ~ In NoBoundaryFile
          (toasts (snd (simulateCollection browser config initialState)))).
Proof.
  split.
  - unfold canStartCollection. split.
    + destruct (boundingFile config) as [file|]; [|discriminate].
      intros H. apply andb_prop in H. destruct H as [Hurl Hn].
      split; [eauto|]. split.
      * intros E. rewrite E in Hurl. discriminate.
      * now apply Z.ltb_lt.
    + intros ([file ->] & Hurl & Hn).
      apply andb_true_intro. split.
      * destruct (String.eqb_spec (startingUrl config) ""); [contradiction|].
        reflexivity.
      * now apply Z.ltb_lt.
  - intros Hgate.
    destruct (simulateCollection_toast_cases browser config)
      as [Hnone Hsome].
    unfold canStartCollection in Hgate.
    destruct (boundingFile config) as [file|] eqn:Hfile; [|discriminate].
    destruct (Hsome file eq_refl) as [-> | ->]; simpl; intuition discriminate.
Qed.

(** ** The form: uploads and change handlers *)

Lemma length_append_string (a b : string) :
  String.length (a ++ b) = String.length a + String.length b.
Proof. induction a as [|c a IH]; simpl; [reflexivity|now rewrite IH]. Qed.

Lemma substring_whole (s : string) : substring 0 (String.length s) s = s.
Proof. induction s as [|c s IH]; simpl; [reflexivity|now rewrite IH]. Qed.

Lemma substring_after (a b : string) :
  substring (String.length a) (String.length b) (a ++ b) = b.
Proof.
  induction a as [|c a IH]; simpl; [apply substring_whole|exact IH].
Qed.

Lemma substring_split (s : string) : forall k,
  k <= String.length s ->
  s = (substring 0 k s ++ substring k (String.length s - k) s)%string.
Proof.
  induction s as [|c s IH]; intros k Hk; simpl in Hk.
  - now destruct k.
  - destruct k as [|k].
    + simpl. now rewrite substring_whole.
    + simpl. f_equal. apply IH. lia.
Qed.

Lemma endsWith_spec (s suffix : string) :
  endsWith s suffix = true <-> exists base, s = (base ++ suffix)%string.
Proof.
  unfold endsWith. split.
  - intros H. apply andb_prop in H. destruct H as [Hlen Heq].
    apply Nat.leb_le in Hlen. apply String.eqb_eq in Heq.
    exists (substring 0 (String.length s - String.length suffix) s).
    pose proof (substring_split s (String.length s - String.length suffix)
                  ltac:(lia)) as Hs.
    replace (String.length s - (String.length s - String.length suffix))
      with (String.length suffix) in Hs by lia.
    rewrite Heq in Hs. exact Hs.
  - intros [base ->]. rewrite length_append_string.
    apply andb_true_intro. split; [apply Nat.leb_le; lia|].
    replace (String.length base + String.length suffix - String.length suffix)
      with (String.length base) by lia.
    rewrite substring_after. apply String.eqb_refl.
Qed.

(** X17: [handleFileUpload] stores the chosen file, with the toast "Boundary
    file uploaded", exactly when its name is some text followed by
    ".geojson"; with any other name, and when no file was chosen, it leaves
    the configuration as it was and shows "Invalid file". *)
Theorem handleFileUpload_accepts_geojson_names (file : option File)
        (config : CollectorConfig) :
  (forall f base,
     file = Some f -> name f = (base ++ ".geojson")%string ->
     handleFileUpload file config
     = ({| boundingFile := Some f; startingUrl := startingUrl config;
           targetCount := targetCount config |},
        BoundaryFileUploaded (name f ++ " ready for processing")))
  /\ (forall f,
        file = Some f ->
        (forall base, name f <> (base ++ ".geojson")%string) ->
        handleFileUpload file config = (config, InvalidFile))
  /\ (file = None -> handleFileUpload file config = (config, InvalidFile)).
Proof.
  split; [|split].
  - intros f base -> Hname. unfold handleFileUpload.
    replace (endsWith (name f) ".geojson") with true; [reflexivity|].
    symmetry. apply endsWith_spec. now exists base.
  - intros f -> Hnot. unfold handleFileUpload.
    destruct (endsWith (name f) ".geojson") eqn:E; [|reflexivity].
    apply endsWith_spec in E. destruct E as [base Hb].
    now destruct (Hnot base).
  - now intros ->.
Qed.

Lemma handleFileUpload_accepts_geojson_names_witness :
  handleFileUpload (Some {| name := "area.geojson"; text := "{...}" |})
    initialConfig
  = ({| boundingFile := Some {| name := "area.geojson"; text := "{...}" |};
        startingUrl := startingUrl initialConfig;
        targetCount := targetCount initialConfig |},
     BoundaryFileUploaded
       (name {| name := "area.geojson"; text := "{...}" |}
        ++ " ready for processing")).
Proof.
  apply (proj1 (handleFileUpload_accepts_geojson_names
                  (Some {| name := "area.geojson"; text := "{...}" |})
                  initialConfig)
           {| name := "area.geojson"; text := "{...}" |} "area").
  - reflexivity.
  - reflexivity.
Defined.

(** The file input offers ".json" files too, and the test is on the case
    of the letters: both are turned down. *)
Example handleFileUpload_rejects_json :
  handleFileUpload (Some {| name := "area.json"; text := "{...}" |})
    initialConfig = (initialConfig, InvalidFile)
  /\ handleFileUpload (Some {| name := "AREA.GEOJSON"; text := "{...}" |})
       initialConfig = (initialConfig, InvalidFile).
Proof. split; reflexivity. Qed.

Lemma handle_boundingFile config e f :
  boundingFile (handle config e) = Some f ->
  boundingFile config = Some f
  \/ (e = FileChosen (Some f) /\ endsWith (name f) ".geojson" = true).
Proof.
  destruct e as [[g|]|value|parsed|]; cbn [handle handleFileUpload fst];
    try (now left).
  destruct (endsWith (name g) ".geojson") eqn:E; cbn [fst boundingFile];
    [|now left].
  intros H. injection H as <-. now right.
Qed.

Lemma handle_keeps_file config e f :
  boundingFile config = Some f ->
  exists f', boundingFile (handle config e) = Some f'.
Proof.
  intros Hf.
  destruct e as [[g|]|value|parsed|]; cbn [handle handleFileUpload fst];
    try (now exists f).
  destruct (endsWith (name g) ".geojson"); cbn [fst boundingFile]; eauto.
Qed.

Lemma fold_handle_file es : forall config f,
  boundingFile (fold_left handle es config) = Some f ->
  boundingFile config = Some f
  \/ (In (FileChosen (Some f)) es /\ endsWith (name f) ".geojson" = true).
Proof.
  induction es as [|e es IH]; intros config f H; cbn [fold_left] in H.
  - now left.
  - destruct (IH _ _ H) as [H1|[H1 H2]].
    + destruct (handle_boundingFile _ _ _ H1) as [H3|[-> H3]];
        [now left|right; split; [now left|assumption]].
    + right. split; [now right|assumption].
Qed.

Lemma fold_handle_keeps_file es : forall config f,
  boundingFile config = Some f ->
  exists f', boundingFile (fold_left handle es config) = Some f'.
Proof.
  induction es as [|e es IH]; intros config f H; cbn [fold_left]; [eauto|].
  destruct (handle_keeps_file config e f H) as [f' Hf']. eauto.
Qed.

(** X18: whatever the user does to the form, a stored boundary file is one
    of the files chosen and has a name ending in ".geojson"; and once a
    file is stored, no later event leaves the form without one. *)
Theorem stored_file_invariant (es es' : list FormEvent) (f : File) :
  boundingFile (afterEvents es) = Some f ->
  In (FileChosen (Some f)) es
  /\ (exists base, name f = (base ++ ".geojson")%string)
  /\ exists f', boundingFile (afterEvents (es ++ es')) = Some f'.
Proof.
  intros H. unfold afterEvents in *.
  destruct (fold_handle_file es initialConfig f H) as [H0|[Hin Hname]];
    [discriminate|].
  split; [assumption|]. split; [now apply endsWith_spec|].
  rewrite fold_left_app. eapply fold_handle_keeps_file. eassumption.
Qed.

Lemma stored_file_invariant_witness :
  In (FileChosen (Some {| name := "area.geojson"; text := "{...}" |}))
     [UrlTyped "https://maps.google.com/";
      FileChosen (Some {| name := "area.geojson"; text := "{...}" |});
      FileChosen (Some {| name := "notes.txt"; text := "" |})]
  /\ (exists base, name {| name := "area.geojson"; text := "{...}" |}
                   = (base ++ ".geojson")%string)
  /\ exists f',
       boundingFile
         (afterEvents
            ([UrlTyped "https://maps.google.com/";
              FileChosen (Some {| name := "area.geojson"; text := "{...}" |});
              FileChosen (Some {| name := "notes.txt"; text := "" |})]
             ++ [FileChosen None; CountTyped None; OptionalTyped]))
       = Some f'.
Proof.
  apply (stored_file_invariant
           [UrlTyped "https://maps.google.com/";
            FileChosen (Some {| name := "area.geojson"; text := "{...}" |});
            FileChosen (Some {| name := "notes.txt"; text := "" |})]
           [FileChosen None; CountTyped None; OptionalTyped]
           {| name := "area.geojson"; text := "{...}" |}).
  reflexivity.
Defined.

(** X19: the start button is disabled on the untouched form; a ".geojson"
    file and a URL alone enable it, because the count starts at 100; and
    after any events, typing a count that [parseInt] cannot read, or a count
    of zero or less, leaves it disabled. *)
Theorem form_enables_start (es : list FormEvent) (parsed : option Z) :
  canStartCollection initialConfig = false
  /\ (match parsed with
      | Some n => (n <= 0)%Z
      | None => True
      end ->
      canStartCollection (afterEvents (es ++ [CountTyped parsed])) = false)
  /\ (forall f url,
        endsWith (name f) ".geojson" = true -> url <> "" ->
        canStartCollection
          (afterEvents [FileChosen (Some f); UrlTyped url]) = true).
Proof.
  split; [reflexivity|]. split.
  - intros Hn. unfold afterEvents. rewrite fold_left_app.
    cbn [fold_left handle]. unfold canStartCollection.
    cbn [onTargetCountChange boundingFile startingUrl targetCount].
    destruct (boundingFile _); [|reflexivity].
    apply andb_false_intro2. destruct parsed as [n|]; [|reflexivity].
    apply Z.ltb_ge. exact Hn.
  - intros f url Hname Hurl. unfold afterEvents.
    cbn [fold_left handle handleFileUpload]. rewrite Hname.
    cbn [fst onStartingUrlChange canStartCollection boundingFile
         startingUrl targetCount initialConfig].
    destruct (String.eqb_spec url ""); [contradiction|reflexivity].
Qed.

Lemma form_enables_start_witness :
  canStartCollection
    (afterEvents
       ([FileChosen (Some {| name := "area.geojson"; text := "{...}" |});
         UrlTyped "https://maps.google.com/"] ++ [CountTyped None]))
  = false.
Proof.
  apply (proj1 (proj2 (form_enables_start
           [FileChosen (Some {| name := "area.geojson"; text := "{...}" |});
            UrlTyped "https://maps.google.com/"] None))).
  exact I.
Defined.

(** ** The earlier collection loop *)

Lemma legacy_for_run browser n : forall i s,
  exists s',
    Legacy.for_ browser n i s = (Returns tt, s')
    /\ results s'
       = results s
         ++ map (fun j =>
                   Legacy.mockResult browser
                     (Math_random browser (drawn s + 3 * j))
                     (Math_random browser (drawn s + 3 * j + 1))
                     (Math_random browser (drawn s + 3 * j + 2))
                     (i + j))
              (seq 0 n)
    /\ drawn s' = drawn s + 3 * n
    /\ toasts s' = toasts s
    /\ warnings s' = warnings s.
Proof.
  induction n as [|n IH]; intros i s; cbn [Legacy.for_].
  - run. eexists. split; [reflexivity|].
    cbn [seq map]. rewrite app_nil_r. repeat split; lia.
  - unfold Legacy.iteration. run.
    match goal with |- context [Legacy.for_ browser n (S i) ?s1] =>
      destruct (IH (S i) s1) as (s' & Hrun & Hr & Hd & Ht & Hw)
    end.
    exists s'. split; [exact Hrun|].
    run in Hr. run in Hd. run in Ht. run in Hw.
    rewrite Hr, Hd, Ht, Hw. repeat split; try lia.
    rewrite <- app_assoc. f_equal. cbn [seq map app].
    f_equal.
    + replace (drawn s + 3 * 0) with (drawn s) by lia.
      replace (drawn s + 1) with (S (drawn s)) by lia.
      replace (drawn s + 2) with (S (S (drawn s))) by lia.
      now replace (i + 0) with i by lia.
    + rewrite <- seq_shift, map_map. apply map_ext. intros j.
      replace (drawn s + 3 * S j) with (S (S (S (drawn s))) + 3 * j) by lia.
      now replace (i + S j) with (S i + j) by lia.
Qed.

(** X20: the earlier version of [simulateCollection] looks at no boundary:
    for every configuration, with or without a boundary file, it returns
    exactly N points (none when N is not positive), the point of slot [j]
    made of the random values [3 j], [3 j + 1] and [3 j + 2], and ends with
    "Collection completed". *)
Theorem legacy_simulateCollection_exactly_N (browser : Browser)
        (config : CollectorConfig) :
  exists s',
    Legacy.simulateCollection browser config initialState = (Returns tt, s')
    /\ results s'
       = map (Legacy.point browser) (seq 0 (Z.to_nat (targetCount config)))
    /\ drawn s' = 3 * Z.to_nat (targetCount config)
    /\ toasts s' = [CollectionCompleted]
    /\ isCollecting s' = false.
Proof.
  unfold Legacy.simulateCollection. run.
  unfold try_catch_finally, bind at 1.
  match goal with |- context [Legacy.for_ browser ?n 0 ?s0] =>
    destruct (legacy_for_run browser n 0 s0) as (s1 & Hrun & Hr & Hd & Ht & _)
  end.
  rewrite Hrun. run. eexists. split; [reflexivity|]. run.
  run in Hr. run in Hd. run in Ht. rewrite Hr, Hd, Ht.
  repeat split.
Qed.

Lemma canStartCollection_gate_witness :
  ~ In NoBoundaryFile
      (toasts (snd (simulateCollection (browserWith squareDoc alternating)
                      (configWith 2) initialState))).
Proof.
  apply (proj2 (canStartCollection_gate (browserWith squareDoc alternating)
                  (configWith 2))).
  reflexivity.
Defined.

(** ** The rectangle is tight *)

Lemma Math_min_choice a b :
  PrimFloat.is_nan a = false -> PrimFloat.is_nan b = false ->
  Js.Math_min a b = a \/ Js.Math_min a b = b.
Proof.
  intros Ha Hb. unfold Js.Math_min. rewrite Ha, Hb. simpl.
  destruct (PrimFloat.ltb a b); [now left|].
  destruct (PrimFloat.ltb b a); [now right|].
  destruct (PrimFloat.get_sign a); auto.
Qed.

Lemma Math_max_choice a b :
  PrimFloat.is_nan a = false -> PrimFloat.is_nan b = false ->
  Js.Math_max a b = a \/ Js.Math_max a b = b.
Proof.
  intros Ha Hb. unfold Js.Math_max. rewrite Ha, Hb. simpl.
  destruct (PrimFloat.ltb a b); [now right|].
  destruct (PrimFloat.ltb b a); [now left|].
  destruct (PrimFloat.get_sign a); auto.
Qed.

Lemma lt_infinity_false a : Js.lt Js.Infinity a = false.
Proof.
  unfold Js.lt. rewrite ltb_spec.
  change (Prim2SF Js.Infinity) with (S754_infinity false).
  unfold SFltb. now destruct (Prim2SF a) as [s|[|]| |s m e].
Qed.

Lemma lt_neg_infinity_false a : Js.lt a (- Js.Infinity)%float = false.
Proof.
  unfold Js.lt. rewrite ltb_spec.
  change (Prim2SF (- Js.Infinity)%float) with (S754_infinity true).
  unfold SFltb. now destruct (Prim2SF a) as [s|[|]| |[|] m e].
Qed.

(** From the infinite rectangle, the first vertex sets all four bounds. *)
Lemma extend_initial v :
  Spec.jsonPosition v ->
  extend initialBounds v
  = {| minLat := snd v; maxLat := snd v; minLng := fst v; maxLng := fst v |}.
Proof.
  intros [Hx Hy]. destruct v as [lng lat]. simpl in Hx, Hy.
  unfold Spec.jsonNumber in Hx, Hy.
  assert (Hmin : forall a, PrimFloat.is_nan a = false ->
                           Js.Math_min Js.Infinity a = a).
  { intros a Ha. unfold Js.Math_min. rewrite Ha.
    change (PrimFloat.is_nan Js.Infinity) with false. cbn [orb].
    change (PrimFloat.ltb Js.Infinity a) with (Js.lt Js.Infinity a).
    rewrite lt_infinity_false.
    change (PrimFloat.get_sign Js.Infinity) with false.
    now destruct (PrimFloat.ltb a Js.Infinity). }
  assert (Hmax : forall a, PrimFloat.is_nan a = false ->
                           Js.Math_max (- Js.Infinity) a = a).
  { intros a Ha. unfold Js.Math_max. rewrite Ha.
    change (PrimFloat.is_nan (- Js.Infinity)) with false. cbn [orb].
    change (PrimFloat.ltb a (- Js.Infinity))
      with (Js.lt a (- Js.Infinity)%float).
    rewrite lt_neg_infinity_false.
    change (PrimFloat.get_sign (- Js.Infinity)) with true.
    now destruct (PrimFloat.ltb (- Js.Infinity) a). }
  unfold extend, initialBounds. cbn [minLat maxLat minLng maxLng fst snd].
  now rewrite !Hmin, !Hmax by assumption.
Qed.

(** Each bound of the rectangle after further vertices is the bound before
    them or a coordinate of one of them. *)
Lemma fold_extend_attained vs : forall b,
  encloses b [] -> Forall Spec.jsonPosition vs ->
  (minLat (fold_left extend vs b) = minLat b
   \/ exists v, In v vs /\ minLat (fold_left extend vs b) = snd v)
  /\ (maxLat (fold_left extend vs b) = maxLat b
      \/ exists v, In v vs /\ maxLat (fold_left extend vs b) = snd v)
  /\ (minLng (fold_left extend vs b) = minLng b
      \/ exists v, In v vs /\ minLng (fold_left extend vs b) = fst v)
  /\ (maxLng (fold_left extend vs b) = maxLng b
      \/ exists v, In v vs /\ maxLng (fold_left extend vs b) = fst v).
Proof.
  induction vs as [|v vs IH]; intros b Hb Hvs; cbn [fold_left].
  - repeat split; now left.
  - inversion Hvs as [|? ? Hv Hvs']; subst.
    assert (Hb' : encloses (extend b v) []).
    { destruct (encloses_extend b [] v Hb Hv) as [Hn _].
      split; [exact Hn|intros p []]. }
    destruct (IH (extend b v) Hb' Hvs') as (I1 & I2 & I3 & I4).
    destruct Hb as [(Hn1 & Hn2 & Hn3 & Hn4) _].
    destruct Hv as [Hx Hy]. destruct v as [lng lat]. simpl in Hx, Hy.
    repeat split.
    + destruct I1 as [I1|(w & Hw & I1)];
        [|right; exists w; split; [now right|exact I1]].
      destruct (Math_min_choice (minLat b) lat Hn1 Hy) as [E|E].
      * left. rewrite I1. exact E.
      * right. exists (lng, lat). split; [now left|]. rewrite I1. exact E.
    + destruct I2 as [I2|(w & Hw & I2)];
        [|right; exists w; split; [now right|exact I2]].
      destruct (Math_max_choice (maxLat b) lat Hn2 Hy) as [E|E].
      * left. rewrite I2. exact E.
      * right. exists (lng, lat). split; [now left|]. rewrite I2. exact E.
    + destruct I3 as [I3|(w & Hw & I3)];
        [|right; exists w; split; [now right|exact I3]].
      destruct (Math_min_choice (minLng b) lng Hn3 Hx) as [E|E].
      * left. rewrite I3. exact E.
      * right. exists (lng, lat). split; [now left|]. rewrite I3. exact E.
    + destruct I4 as [I4|(w & Hw & I4)];
        [|right; exists w; split; [now right|exact I4]].
      destruct (Math_max_choice (maxLng b) lng Hn4 Hx) as [E|E].
      * left. rewrite I4. exact E.
      * right. exists (lng, lat). split; [now left|]. rewrite I4. exact E.
Qed.

(** X21: on a boundary of JSON numbers with at least one vertex, each of the
    four bounds of the computed rectangle is a coordinate of some vertex:
    no smaller rectangle contains the vertices. *)
Theorem getBoundaryBounds_tight (geojson : GeoJSON) (b : Bounds) :
  getBoundaryBounds geojson = Ok b ->
  Forall Spec.jsonPosition (Spec.boundaryVertices geojson) ->
  Spec.boundaryVertices geojson <> [] ->
  (exists v, In v (Spec.boundaryVertices geojson) /\ minLat b = snd v)
  /\ (exists v, In v (Spec.boundaryVertices geojson) /\ maxLat b = snd v)
  /\ (exists v, In v (Spec.boundaryVertices geojson) /\ minLng b = fst v)
  /\ (exists v, In v (Spec.boundaryVertices geojson) /\ maxLng b = fst v).
Proof.
  intros Hb Hnum Hne. apply getBoundaryBounds_vertices in Hb. subst b.
  destruct (Spec.boundaryVertices geojson) as [|v vs]; [contradiction|].
  inversion Hnum as [|? ? Hv Hvs]; subst.
  cbn [fold_left]. rewrite (extend_initial v Hv).
  assert (Hb1 : encloses
    {| minLat := snd v; maxLat := snd v; minLng := fst v; maxLng := fst v |}
    []).
  { destruct Hv as [Hx Hy]. split; [repeat split; assumption|intros p []]. }
  destruct (fold_extend_attained vs _ Hb1 Hvs) as (I1 & I2 & I3 & I4).
  cbn [minLat maxLat minLng maxLng] in I1, I2, I3, I4.
  repeat split.
  - destruct I1 as [I1|(w & Hw & I1)];
      [exists v; split; [now left|exact I1]
      |exists w; split; [now right|exact I1]].
  - destruct I2 as [I2|(w & Hw & I2)];
      [exists v; split; [now left|exact I2]
      |exists w; split; [now right|exact I2]].
  - destruct I3 as [I3|(w & Hw & I3)];
      [exists v; split; [now left|exact I3]
      |exists w; split; [now right|exact I3]].
  - destruct I4 as [I4|(w & Hw & I4)];
      [exists v; split; [now left|exact I4]
      |exists w; split; [now right|exact I4]].
Qed.

Lemma getBoundaryBounds_tight_witness :
  (exists v, In v (Spec.boundaryVertices squareDoc) /\ 0%float = snd v)
  /\ (exists v, In v (Spec.boundaryVertices squareDoc) /\ 10%float = snd v)
  /\ (exists v, In v (Spec.boundaryVertices squareDoc) /\ 0%float = fst v)
  /\ (exists v, In v (Spec.boundaryVertices squareDoc) /\ 10%float = fst v).
Proof.
  apply (getBoundaryBounds_tight squareDoc
           {| minLat := 0; maxLat := 10; minLng := 0; maxLng := 10 |}).
  - reflexivity.
  - repeat constructor.
  - discriminate.
Defined.
